(** * Chat client controller (ui/static/script.js)

    A shallow embedding of the browser-side controller of potato_bot: the
    chat form, the debug log and the template management buttons.  Both
    localised copies of the script (English and Japanese) are the same
    program over a different table of user-facing strings, so the embedding
    is written once over a [Locale].

    Handlers are asynchronous functions.  They are embedded as trees of
    effects ([Prog]): reads and writes of the DOM, the blocking dialogs
    [alert] and [confirm], [console.error], and the two suspension points
    [await fetch(..)] and [await response.json()].  An interpreter runs a
    tree against a [World] that answers the dialogs and the network. *)

From Stdlib Require Import String Ascii List ZArith Bool DecimalString.
From ExtLib Require Import Structures.Monad Structures.MonadExc.
Import ListNotations.
Import MonadNotation.
Local Open Scope string_scope.
Local Open Scope monad_scope.
Set Warnings "-register-all".

(* ===================================================================== *)
(** ** Strings *)
(* ===================================================================== *)

(** Strings are byte strings holding UTF-8 text. *)

Module Str.

Definition bytes (s : string) : list ascii := list_ascii_of_string s.
Definition of_bytes (l : list ascii) : string := string_of_list_ascii l.

Definition is_empty (s : string) : bool :=
  match s with EmptyString => true | String _ _ => false end.

(** Decimal rendering of an integer, as in a template literal. *)
Definition of_Z (z : Z) : string := NilZero.string_of_int (Z.to_int z).

Definition byte (n : nat) : ascii := ascii_of_nat n.

(** ECMAScript WhiteSpace and LineTerminator code points, in UTF-8. *)
Definition white_space : list (list ascii) :=
  map (map byte)
    [ [9]; [10]; [11]; [12]; [13]; [32];
      [194; 160];                       (* U+00A0 *)
      [225; 154; 128];                  (* U+1680 *)
      [226; 128; 128]; [226; 128; 129]; [226; 128; 130]; [226; 128; 131];
      [226; 128; 132]; [226; 128; 133]; [226; 128; 134]; [226; 128; 135];
      [226; 128; 136]; [226; 128; 137]; [226; 128; 138];   (* U+2000-200A *)
      [226; 128; 168]; [226; 128; 169]; (* U+2028, U+2029 *)
      [226; 128; 175];                  (* U+202F *)
      [226; 129; 159];                  (* U+205F *)
      [227; 128; 128];                  (* U+3000 *)
      [239; 187; 191] ].                (* U+FEFF *)

Fixpoint strip_prefix (p l : list ascii) : option (list ascii) :=
  match p, l with
  | [], _ => Some l
  | _ :: _, [] => None
  | a :: p', b :: l' => if Ascii.eqb a b then strip_prefix p' l' else None
  end.

Fixpoint strip_any (toks : list (list ascii)) (l : list ascii)
  : option (list ascii) :=
  match toks with
  | [] => None
  | t :: toks' =>
      match strip_prefix t l with
      | Some r => Some r
      | None => strip_any toks' l
      end
  end.

(** Drop leading tokens; the fuel is the length of the input, and every
    token is non-empty. *)
Fixpoint drop_leading (toks : list (list ascii)) (fuel : nat)
    (l : list ascii) : list ascii :=
  match fuel with
  | O => l
  | S fuel' =>
      match strip_any toks l with
      | Some r => drop_leading toks fuel' r
      | None => l
      end
  end.

Definition trim_start (l : list ascii) : list ascii :=
  drop_leading white_space (length l) l.

Definition trim_end (l : list ascii) : list ascii :=
  rev (drop_leading (map (@rev ascii) white_space) (length l) (rev l)).

(** [String.prototype.trim] *)
Definition trim (s : string) : string :=
  of_bytes (trim_end (trim_start (bytes s))).

Definition hex_digit (n : nat) : ascii :=
  if Nat.ltb n 10 then ascii_of_nat (48 + n) else ascii_of_nat (87 + n).

(** One character of [QuoteJSONString]. *)
Definition quote_char (c : ascii) : list ascii :=
  let n := nat_of_ascii c in
  if Nat.eqb n 34 then map byte [92; 34]
  else if Nat.eqb n 92 then map byte [92; 92]
  else if Nat.eqb n 8 then map byte [92; 98]
  else if Nat.eqb n 9 then map byte [92; 116]
  else if Nat.eqb n 10 then map byte [92; 110]
  else if Nat.eqb n 12 then map byte [92; 102]
  else if Nat.eqb n 13 then map byte [92; 114]
  else if Nat.ltb n 32 then
    map byte [92; 117; 48; 48] ++ [hex_digit (n / 16); hex_digit (n mod 16)]
  else [c].

Definition quote (s : string) : string :=
  of_bytes (byte 34 :: flat_map quote_char (bytes s) ++ [byte 34]).

Fixpoint join (sep : string) (l : list string) : string :=
  match l with
  | [] => ""
  | [x] => x
  | x :: rest => x ++ sep ++ join sep rest
  end.

End Str.

(* ===================================================================== *)
(** ** JavaScript values that reach the script *)
(* ===================================================================== *)

(** Every value the handlers manipulate besides DOM strings comes out of
    [response.json()], so it is a JSON value, or [undefined] when a property
    is missing.  Numbers are kept as integers: the script does no arithmetic,
    it only compares a [length] with 0 and prints values.  An object is the
    list of its own properties, each key once, as [JSON.parse] builds it. *)
Inductive Json : Type :=
| JNull
| JBool (b : bool)
| JNum (n : Z)
| JStr (s : string)
| JArr (items : list Json)
| JObj (fields : list (string * Json)).

(** [None] is [undefined]. *)
Definition JsVal : Type := option Json.

(** An exception object; every value thrown or rejected in the script is an
    [Error] instance, and the script only reads its [message]. *)
Record JsError : Type := mkError { err_name : string; err_message : string }.

Definition Error (msg : string) : JsError := mkError "Error" msg.
Definition TypeError (msg : string) : JsError := mkError "TypeError" msg.

(** Results of operations that may throw. *)
Definition Res (A : Type) : Type := (JsError + A)%type.

Fixpoint assoc (k : string) (fs : list (string * Json)) : option Json :=
  match fs with
  | [] => None
  | (k', v) :: fs' => if String.eqb k k' then Some v else assoc k fs'
  end.

Definition has_key (k : string) (fs : list (string * Json)) : bool :=
  match assoc k fs with Some _ => true | None => false end.

Definition cannot_convert : JsError :=
  TypeError "Cannot convert object to primitive value".

(** The abstract operation ToString on a parsed JSON value.  An array prints
    through [Array.prototype.join], which prints [null] elements as the
    empty string.  A plain object prints as [[object Object]], unless the
    body gave it an own property [toString]: that property is a JSON value,
    hence not callable, and [Object.prototype.valueOf] returns the object
    itself, so OrdinaryToPrimitive throws a TypeError. *)
Fixpoint to_string (v : Json) : Res string :=
  match v with
  | JNull => inr "null"
  | JBool true => inr "true"
  | JBool false => inr "false"
  | JNum n => inr (Str.of_Z n)
  | JStr s => inr s
  | JArr items =>
      let fix elems (l : list Json) : Res (list string) :=
        match l with
        | [] => inr []
        | x :: l' =>
            match (match x with JNull => inr "" | _ => to_string x end) with
            | inl e => inl e
            | inr s =>
                match elems l' with
                | inl e => inl e
                | inr ss => inr (s :: ss)
                end
            end
        end in
      match elems items with
      | inl e => inl e
      | inr ss => inr (Str.join "," ss)
      end
  | JObj fields =>
      if has_key "toString" fields then inl cannot_convert
      else inr "[object Object]"
  end.

(** Conversion of an argument of WebIDL type [DOMString] ([alert(v)],
    [option.value = v]). *)
Definition dom_string (v : JsVal) : Res string :=
  match v with
  | None => inr "undefined"
  | Some j => to_string j
  end.

(** Conversion for the nullable attribute [textContent]: [null] and
    [undefined] clear the text. *)
Definition text_content (v : JsVal) : Res string :=
  match v with
  | None | Some JNull => inr ""
  | Some j => to_string j
  end.

(** The [message] of [new Error(v)]: absent argument leaves the inherited
    empty message. *)
Definition error_of (v : JsVal) : Res JsError :=
  match v with
  | None => inr (Error "")
  | Some j =>
      match to_string j with
      | inl e => inl e
      | inr s => inr (Error s)
      end
  end.

(** Property read [v.name] for the names the script uses ([response],
    [debug_log], [success], [error]): none of them lives on a prototype, so
    only own properties of objects answer; reading from [null] throws. *)
Definition get_prop (v : Json) (name : string) : Res JsVal :=
  match v with
  | JNull =>
      inl (TypeError ("Cannot read properties of null (reading '" ++ name ++ "')"))
  | JObj fields => inr (assoc name fields)
  | _ => inr None
  end.

(** [v.length]: the built-in of arrays and strings, an own property of an
    object, [undefined] elsewhere.  (The script only tests it against 0, so
    the unit in which a string is measured does not matter.) *)
Definition get_length (v : Json) : Res JsVal :=
  match v with
  | JNull => inl (TypeError "Cannot read properties of null (reading 'length')")
  | JArr items => inr (Some (JNum (Z.of_nat (length items))))
  | JStr s => inr (Some (JNum (Z.of_nat (String.length s))))
  | JObj fields => inr (assoc "length" fields)
  | _ => inr None
  end.

(** [v === 0] *)
Definition strict_eq_zero (v : JsVal) : bool :=
  match v with
  | Some (JNum n) => Z.eqb n 0
  | _ => false
  end.

(** ToBoolean *)
Definition truthy (v : JsVal) : bool :=
  match v with
  | None | Some JNull => false
  | Some (JBool b) => b
  | Some (JNum n) => negb (Z.eqb n 0)
  | Some (JStr s) => negb (Str.is_empty s)
  | Some (JArr _) | Some (JObj _) => true
  end.

(** [Array.isArray] *)
Definition is_array (v : JsVal) : bool :=
  match v with Some (JArr _) => true | _ => false end.

(** [JSON.stringify] *)
Fixpoint JSON_stringify (v : Json) : string :=
  match v with
  | JNull => "null"
  | JBool true => "true"
  | JBool false => "false"
  | JNum n => Str.of_Z n
  | JStr s => Str.quote s
  | JArr items =>
      "[" ++ Str.join "," (map JSON_stringify items) ++ "]"
  | JObj fields =>
      "{" ++ Str.join ","
               (map (fun kv => Str.quote (fst kv) ++ ":" ++ JSON_stringify (snd kv))
                    fields) ++ "}"
  end.

(* ===================================================================== *)
(** ** The document *)
(* ===================================================================== *)

(** What [appendMessage] builds: [<div class="message C"><strong>sender
    </strong><div>text</div></div>]. *)
Record MessageEl : Type := mkMessage {
  msg_classes : list string;
  msg_sender : string;
  msg_text : string }.

(** An [<option>]: its [value] attribute when set, its text, [disabled]. *)
Record OptionEl : Type := mkOption {
  opt_value : option string;
  opt_text : string;
  opt_disabled : bool }.

(** The [<select id="template-select">], a single-choice drop-down. *)
Record SelectEl : Type := mkSelect {
  sel_options : list OptionEl;
  sel_selected : option nat;
  sel_disabled : bool }.

(** The elements the script looks up by id ([message-input],
    [chat-messages], [chat-window], [debug-log], [template-select],
    [template-name-input]), with the part of each that the script reads or
    writes.  The form and the buttons only carry the listeners. *)
Record Dom : Type := mkDom {
  messageInput : string;            (* messageInput.value *)
  chatMessages : list MessageEl;    (* children of #chat-messages *)
  chatWindow_atEnd : bool;          (* scrollTop = scrollHeight *)
  debugLog : list string;           (* text of the <p> children *)
  templateSelect : SelectEl;
  templateNameInput : string }.     (* templateNameInput.value *)

(** The [value] getter of an option falls back on its text. *)
Definition option_value (o : OptionEl) : string :=
  match opt_value o with Some v => v | None => opt_text o end.

(** [templateSelect.value]: the value of the selected option, or the empty
    string when no option is selected. *)
Definition select_value (s : SelectEl) : string :=
  match sel_selected s with
  | Some i =>
      match nth_error (sel_options s) i with
      | Some o => option_value o
      | None => ""
      end
  | None => ""
  end.

Fixpoint first_enabled (l : list OptionEl) : option nat :=
  match l with
  | [] => None
  | o :: l' =>
      if opt_disabled o then option_map S (first_enabled l') else Some 0%nat
  end.

(** [templateSelect.innerHTML = ''] *)
Definition select_clear (s : SelectEl) : SelectEl :=
  mkSelect [] None (sel_disabled s).

(** [templateSelect.appendChild(option)].  When nothing is selected the
    browser selects the first option that is not disabled. *)
Definition select_append (o : OptionEl) (s : SelectEl) : SelectEl :=
  let opts := (sel_options s ++ [o])%list in
  mkSelect opts
    (match sel_selected s with
     | Some i => Some i
     | None => first_enabled opts
     end)
    (sel_disabled s).

Definition set_messageInput (v : string) (d : Dom) : Dom :=
  mkDom v (chatMessages d) (chatWindow_atEnd d) (debugLog d)
        (templateSelect d) (templateNameInput d).

Definition set_chatMessages (l : list MessageEl) (d : Dom) : Dom :=
  mkDom (messageInput d) l (chatWindow_atEnd d) (debugLog d)
        (templateSelect d) (templateNameInput d).

Definition set_chatWindow_atEnd (b : bool) (d : Dom) : Dom :=
  mkDom (messageInput d) (chatMessages d) b (debugLog d)
        (templateSelect d) (templateNameInput d).

Definition set_debugLog (l : list string) (d : Dom) : Dom :=
  mkDom (messageInput d) (chatMessages d) (chatWindow_atEnd d) l
        (templateSelect d) (templateNameInput d).

Definition set_templateSelect (s : SelectEl) (d : Dom) : Dom :=
  mkDom (messageInput d) (chatMessages d) (chatWindow_atEnd d) (debugLog d)
        s (templateNameInput d).

Definition set_templateNameInput (v : string) (d : Dom) : Dom :=
  mkDom (messageInput d) (chatMessages d) (chatWindow_atEnd d) (debugLog d)
        (templateSelect d) v.

(* ===================================================================== *)
(** ** The network *)
(* ===================================================================== *)

(** The arguments of a [fetch] call. *)
Record Request : Type := mkRequest {
  req_url : string;
  req_method : string;
  req_headers : list (string * string);
  req_body : option string }.

(** A response: its status, and what [response.json()] settles to (the
    decoded body, or the SyntaxError of a body that is not JSON). *)
Record Response : Type := mkResponse {
  resp_status : Z;
  resp_json : Res Json }.

(** [response.ok] *)
Definition resp_ok (r : Response) : bool :=
  (200 <=? resp_status r)%Z && (resp_status r <=? 299)%Z.

Definition json_headers : list (string * string) :=
  [("Content-Type", "application/json")].

(** [fetch(url, { method: 'POST', headers: {'Content-Type':
    'application/json'}, body: JSON.stringify(payload) })] *)
Definition post_json (url : string) (payload : Json) : Request :=
  mkRequest url "POST" json_headers (Some (JSON_stringify payload)).

(** [fetch(url)] *)
Definition get (url : string) : Request := mkRequest url "GET" [] None.

(* ===================================================================== *)
(** ** Handler programs *)
(* ===================================================================== *)

(** The body of an (async) function as a tree of its effects.  [AwaitFetch]
    and [AwaitJson] are the points where the function suspends; their
    continuation receives the settled promise, a rejection being [inl]. *)
Inductive Prog (A : Type) : Type :=
| Ret (a : A)
| Throw (e : JsError)
| ReadDom (k : Dom -> Prog A)
| WriteDom (d : Dom) (k : Prog A)
| Alert (msg : string) (k : Prog A)
| Confirm (msg : string) (k : bool -> Prog A)
| ConsoleError (label : string) (e : JsError) (k : Prog A)
| AwaitFetch (req : Request) (k : Res Response -> Prog A)
| AwaitJson (resp : Response) (k : Res Json -> Prog A).

Arguments Ret {A} a.
Arguments Throw {A} e.
Arguments ReadDom {A} k.
Arguments WriteDom {A} d k.
Arguments Alert {A} msg k.
Arguments Confirm {A} msg k.
Arguments ConsoleError {A} label e k.
Arguments AwaitFetch {A} req k.
Arguments AwaitJson {A} resp k.

Fixpoint pbind {A B} (p : Prog A) (f : A -> Prog B) : Prog B :=
  match p with
  | Ret a => f a
  | Throw e => Throw e
  | ReadDom k => ReadDom (fun d => pbind (k d) f)
  | WriteDom d k => WriteDom d (pbind k f)
  | Alert m k => Alert m (pbind k f)
  | Confirm m k => Confirm m (fun b => pbind (k b) f)
  | ConsoleError l e k => ConsoleError l e (pbind k f)
  | AwaitFetch r k => AwaitFetch r (fun x => pbind (k x) f)
  | AwaitJson r k => AwaitJson r (fun x => pbind (k x) f)
  end.

(** [try { p } catch (error) { h error }] *)
Fixpoint try_catch {A} (p : Prog A) (h : JsError -> Prog A) : Prog A :=
  match p with
  | Ret a => Ret a
  | Throw e => h e
  | ReadDom k => ReadDom (fun d => try_catch (k d) h)
  | WriteDom d k => WriteDom d (try_catch k h)
  | Alert m k => Alert m (try_catch k h)
  | Confirm m k => Confirm m (fun b => try_catch (k b) h)
  | ConsoleError l e k => ConsoleError l e (try_catch k h)
  | AwaitFetch r k => AwaitFetch r (fun x => try_catch (k x) h)
  | AwaitJson r k => AwaitJson r (fun x => try_catch (k x) h)
  end.

#[global] Instance Monad_Prog : Monad Prog :=
  {| ret := @Ret; bind := @pbind |}.

#[global] Instance Exc_Prog : MonadExc JsError Prog :=
  {| raise := @Throw; catch := @try_catch |}.

(** An operation that returns or throws. *)
Definition lift {A} (r : Res A) : Prog A :=
  match r with inl e => Throw e | inr a => Ret a end.

Definition read_dom : Prog Dom := ReadDom Ret.
Definition modify_dom (f : Dom -> Dom) : Prog unit :=
  ReadDom (fun d => WriteDom (f d) (Ret tt)).
Definition alert (msg : string) : Prog unit := Alert msg (Ret tt).
Definition confirm (msg : string) : Prog bool := Confirm msg Ret.
Definition console_error (label : string) (e : JsError) : Prog unit :=
  ConsoleError label e (Ret tt).
(** [await fetch(..)] *)
Definition fetch (req : Request) : Prog Response := AwaitFetch req lift.
(** [await response.json()] *)
Definition json (resp : Response) : Prog Json := AwaitJson resp lift.

(** [l.forEach(f)] *)
Fixpoint for_each {A} (l : list A) (f : A -> Prog unit) : Prog unit :=
  match l with
  | [] => Ret tt
  | x :: l' => pbind (f x) (fun _ => for_each l' f)
  end.

(* ===================================================================== *)
(** ** Running a handler *)
(* ===================================================================== *)

(** What the user and the server do: the answer to a [confirm] dialog and
    the outcome of a request. *)
Record World : Type := mkWorld {
  user_confirms : string -> bool;
  server : Request -> Res Response }.

(** What leaves the page, in order. *)
Inductive Obs : Type :=
| ObsAlert (msg : string)
| ObsConfirm (msg : string) (answer : bool)
| ObsConsoleError (label : string) (e : JsError)
| ObsFetch (req : Request).

Record Outcome (A : Type) : Type := mkOutcome {
  trace : list Obs;
  final : Dom;
  result : Res A }.
Arguments mkOutcome {A} trace final result.
Arguments trace {A} o.
Arguments final {A} o.
Arguments result {A} o.

Definition emit {A} (o : Obs) (r : Outcome A) : Outcome A :=
  mkOutcome (o :: trace r) (final r) (result r).

(** Run a handler to completion, nothing else touching the page while it
    is suspended.  ([run_sync] below stops at the first suspension, so that
    what a continuation does can be stated for any page it resumes on.) *)
Fixpoint run {A} (w : World) (p : Prog A) (d : Dom) : Outcome A :=
  match p with
  | Ret a => mkOutcome [] d (inr a)
  | Throw e => mkOutcome [] d (inl e)
  | ReadDom k => run w (k d) d
  | WriteDom d' k => run w k d'
  | Alert m k => emit (ObsAlert m) (run w k d)
  | Confirm m k =>
      emit (ObsConfirm m (user_confirms w m)) (run w (k (user_confirms w m)) d)
  | ConsoleError l e k => emit (ObsConsoleError l e) (run w k d)
  | AwaitFetch r k => emit (ObsFetch r) (run w (k (server w r)) d)
  | AwaitJson r k => run w (k (resp_json r)) d
  end.

(** Where a handler stands when it gives control back to the browser. *)
Inductive Stage (A : Type) : Type :=
| Finished (r : Res A)
| PendingFetch (req : Request) (k : Res Response -> Prog A)
| PendingJson (resp : Response) (k : Res Json -> Prog A).
Arguments Finished {A} r.
Arguments PendingFetch {A} req k.
Arguments PendingJson {A} resp k.

(** Run the synchronous part of a handler: up to its first [await], or to
    its end.  The trace holds the dialogs and log lines of that part. *)
Fixpoint run_sync {A} (w : World) (p : Prog A) (d : Dom)
  : list Obs * Dom * Stage A :=
  match p with
  | Ret a => ([], d, Finished (inr a))
  | Throw e => ([], d, Finished (inl e))
  | ReadDom k => run_sync w (k d) d
  | WriteDom d' k => run_sync w k d'
  | Alert m k =>
      let '(t, d', s) := run_sync w k d in (ObsAlert m :: t, d', s)
  | Confirm m k =>
      let '(t, d', s) := run_sync w (k (user_confirms w m)) d in
      (ObsConfirm m (user_confirms w m) :: t, d', s)
  | ConsoleError l e k =>
      let '(t, d', s) := run_sync w k d in (ObsConsoleError l e :: t, d', s)
  | AwaitFetch r k => ([], d, PendingFetch r k)
  | AwaitJson r k => ([], d, PendingJson r k)
  end.

(** The requests a trace holds. *)
Fixpoint requests (t : list Obs) : list Request :=
  match t with
  | [] => []
  | ObsFetch r :: t' => r :: requests t'
  | _ :: t' => requests t'
  end.

(** The messages the user was shown in dialogs. *)
Fixpoint dialogs (t : list Obs) : list string :=
  match t with
  | [] => []
  | ObsAlert m :: t' => m :: dialogs t'
  | ObsConfirm m _ :: t' => m :: dialogs t'
  | _ :: t' => dialogs t'
  end.

(* ===================================================================== *)
(** ** The script *)
(* ===================================================================== *)

(** The user-facing strings in which the two copies of the script differ. *)
Record Locale : Type := mkLocale {
  system_sender : string;
  chat_error_text : string;
  no_templates_text : string;
  enter_name_text : string;
  save_error_text : string -> string;
  no_selection_text : string;
  reset_confirm_text : string -> string;
  load_confirm_text : string -> string;
  load_error_text : string -> string;
  delete_confirm_text : string -> string;
  delete_error_text : string -> string }.

(** mk1/ui/static/script.js *)
Definition en : Locale := {|
  system_sender := "System";
  chat_error_text := "Sorry, I encountered an error. Please try again.";
  no_templates_text := "No templates saved";
  enter_name_text := "Please enter a name for the template.";
  save_error_text := fun m => "Error saving template: " ++ m;
  no_selection_text := "No template selected.";
  reset_confirm_text := fun t =>
    "This will wipe all current progress and reset the bot's state to the '"
      ++ t ++ "' template. Are you sure?";
  load_confirm_text := fun t =>
    "This will load the '" ++ t
      ++ "' template. Current unsaved progress will be lost. Are you sure?";
  load_error_text := fun m => "Error loading template: " ++ m;
  delete_confirm_text := fun t =>
    "Are you sure you want to permanently delete the '" ++ t ++ "' template?";
  delete_error_text := fun m => "Error deleting template: " ++ m |}.

(** mk1_japanese/mk2/ui/static/script.js *)
Definition ja : Locale := {|
  system_sender := "システム";
  chat_error_text :=
    "申し訳ありません、エラーが発生しました。もう一度お試しください。";
  no_templates_text := "保存されたテンプレートはありません";
  enter_name_text := "テンプレート名を入力してください。";
  save_error_text := fun m =>
    "テンプレートの保存中にエラーが発生しました: " ++ m;
  no_selection_text := "テンプレートが選択されていません。";
  reset_confirm_text := fun t =>
    "現在のすべての進行状況を消去し、ボットの状態をテンプレート '" ++ t
      ++ "' にリセットします。よろしいですか？";
  load_confirm_text := fun t =>
    "テンプレート '" ++ t
      ++ "' を読み込みます。保存されていない現在の進行状況は失われます。よろしいですか？";
  load_error_text := fun m =>
    "テンプレートの読み込み中にエラーが発生しました: " ++ m;
  delete_confirm_text := fun t =>
    "テンプレート '" ++ t ++ "' を完全に削除してもよろしいですか？";
  delete_error_text := fun m =>
    "テンプレートの削除中にエラーが発生しました: " ++ m |}.

Section Script.

Variable L : Locale.

(** [appendMessage(sender, message, messageClass)].  The element is built
    first; it joins the chat only if setting its text did not throw. *)
Definition appendMessage (sender : string) (message : JsVal)
    (messageClass : string) : Prog unit :=
  text <- lift (text_content message) ;;
  modify_dom (fun d =>
    set_chatWindow_atEnd true
      (set_chatMessages
         (chatMessages d ++ [mkMessage ["message"; messageClass] sender text])
         d)).

(** The body of [logEntries.forEach(entry => ..)]. *)
Definition debug_entry (entry : Json) : Prog unit :=
  text <- lift (text_content (Some entry)) ;;
  modify_dom (fun d => set_debugLog (debugLog d ++ [text]) d).

(** [updateDebugLog(logEntries)] *)
Definition updateDebugLog (logEntries : JsVal) : Prog unit :=
  modify_dom (set_debugLog []) ;;
  if truthy logEntries && is_array logEntries then
    match logEntries with
    | Some (JArr entries) => for_each entries debug_entry
    | _ => ret tt
    end
  else ret tt.

Definition chat_request (message : string) : Request :=
  post_json "/chat" (JObj [("message", JStr message)]).

(** The [submit] listener of the chat form.  ([e.preventDefault()] only
    stops the browser from navigating away.) *)
Definition chatForm_submit : Prog unit :=
  d <- read_dom ;;
  let message := Str.trim (messageInput d) in
  if Str.is_empty message then ret tt
  else
    appendMessage "You" (Some (JStr message)) "user-message" ;;
    modify_dom (set_messageInput "") ;;
    catch
      (response <- fetch (chat_request message) ;;
       (if negb (resp_ok response) then
          raise (Error ("HTTP error! status: " ++ Str.of_Z (resp_status response)))
        else ret tt) ;;
       data <- json response ;;
       answer <- lift (get_prop data "response") ;;
       appendMessage "Potato" answer "bot-message" ;;
       log <- lift (get_prop data "debug_log") ;;
       updateDebugLog log)
      (fun error =>
         console_error "Error:" error ;;
         appendMessage (system_sender L) (Some (JStr (chat_error_text L)))
           "bot-message").

(** The body of [templates.forEach(name => ..)]. *)
Definition add_template_option (name : Json) : Prog unit :=
  value <- lift (dom_string (Some name)) ;;
  text <- lift (text_content (Some name)) ;;
  modify_dom (fun d =>
    set_templateSelect
      (select_append (mkOption (Some value) text false) (templateSelect d)) d).

(** [loadTemplates()] *)
Definition loadTemplates : Prog unit :=
  catch
    (response <- fetch (get "/templates") ;;
     templates <- json response ;;
     modify_dom (fun d =>
       set_templateSelect (select_clear (templateSelect d)) d) ;;
     len <- lift (get_length templates) ;;
     if strict_eq_zero len then
       modify_dom (fun d =>
         set_templateSelect
           (select_append (mkOption None (no_templates_text L) true)
              (templateSelect d)) d)
     else
       match templates with
       | JArr names => for_each names add_template_option
       | _ => raise (TypeError "templates.forEach is not a function")
       end)
    (fun error => console_error "Failed to load templates:" error).

Definition name_payload (name : string) : Json :=
  JObj [("name", JStr name)].

(** The [click] listener of the save button.  The call [loadTemplates()]
    is not awaited; it is the last statement of its branch and its promise
    never rejects, so its effects follow those of the listener in this
    order. *)
Definition saveTemplateBtn_click : Prog unit :=
  d <- read_dom ;;
  let name := Str.trim (templateNameInput d) in
  if Str.is_empty name then alert (enter_name_text L)
  else
    catch
      (response <- fetch (post_json "/templates/save" (name_payload name)) ;;
       result <- json response ;;
       if resp_ok response then
         success <- lift (get_prop result "success") ;;
         msg <- lift (dom_string success) ;;
         alert msg ;;
         modify_dom (set_templateNameInput "") ;;
         loadTemplates
       else
         error <- lift (get_prop result "error") ;;
         e <- lift (error_of error) ;;
         raise e)
      (fun error => alert (save_error_text L (err_message error))).

(** The wording of the confirmation, by action. *)
Definition confirmationText (action selectedTemplate : string) : string :=
  if String.eqb action "reset"
  then reset_confirm_text L selectedTemplate
  else load_confirm_text L selectedTemplate.

(** [handleLoadReset(action)] *)
Definition handleLoadReset (action : string) : Prog unit :=
  d <- read_dom ;;
  let selectedTemplate := select_value (templateSelect d) in
  if Str.is_empty selectedTemplate || sel_disabled (templateSelect d) then
    alert (no_selection_text L)
  else
    yes <- confirm (confirmationText action selectedTemplate) ;;
    if negb yes then ret tt
    else
      catch
        (response <- fetch (post_json "/templates/load"
                              (name_payload selectedTemplate)) ;;
         result <- json response ;;
         if resp_ok response then
           success <- lift (get_prop result "success") ;;
           msg <- lift (dom_string success) ;;
           alert msg ;;
           modify_dom (set_chatMessages []) ;;
           modify_dom (set_debugLog [])
         else
           error <- lift (get_prop result "error") ;;
           e <- lift (error_of error) ;;
           raise e)
        (fun error => alert (load_error_text L (err_message error))).

(** The [click] listeners of the load and reset buttons. *)
Definition loadTemplateBtn_click : Prog unit := handleLoadReset "load".
Definition resetBtn_click : Prog unit := handleLoadReset "reset".

(** The [click] listener of the delete button; [loadTemplates()] as in
    the save listener. *)
Definition deleteTemplateBtn_click : Prog unit :=
  d <- read_dom ;;
  let selectedTemplate := select_value (templateSelect d) in
  if Str.is_empty selectedTemplate || sel_disabled (templateSelect d) then
    alert (no_selection_text L)
  else
    yes <- confirm (delete_confirm_text L selectedTemplate) ;;
    if negb yes then ret tt
    else
      catch
        (response <- fetch (post_json "/templates/delete"
                              (name_payload selectedTemplate)) ;;
         result <- json response ;;
         if resp_ok response then
           success <- lift (get_prop result "success") ;;
           msg <- lift (dom_string success) ;;
           alert msg ;;
           loadTemplates
         else
           error <- lift (get_prop result "error") ;;
           e <- lift (error_of error) ;;
           raise e)
        (fun error => alert (delete_error_text L (err_message error))).

End Script.

(** The page finished loading: the script fills the template list. *)
Definition on_DOMContentLoaded (L : Locale) : Prog unit := loadTemplates L.

Arguments loadTemplates : simpl never.
Arguments confirmationText : simpl never.
Arguments Str.trim : simpl never.
Arguments Str.of_Z : simpl never.
Arguments Str.quote : simpl never.
Arguments JSON_stringify : simpl never.
Arguments String.append : simpl never.

(* ===================================================================== *)
(** ** Vocabulary of the properties *)
(* ===================================================================== *)

(** *** Outcomes *)

Definition prepend {A} (t : list Obs) (o : Outcome A) : Outcome A :=
  mkOutcome (t ++ trace o) (final o) (result o).

(** Sequencing of outcomes: the second part runs from where the first one
    stopped, unless the first one threw. *)
Definition and_then {A B} (o : Outcome A) (f : A -> Dom -> Outcome B)
  : Outcome B :=
  match result o with
  | inl e => mkOutcome (trace o) (final o) (inl e)
  | inr a => prepend (trace o) (f a (final o))
  end.

(** The handler of a [catch] runs from where the body threw. *)
Definition or_else {A} (o : Outcome A) (h : JsError -> Dom -> Outcome A)
  : Outcome A :=
  match result o with
  | inl e => prepend (trace o) (h e (final o))
  | inr a => o
  end.

(** A run is its synchronous part followed by what the continuation does
    once the awaited promise settles. *)
Definition resume {A} (w : World) (st : list Obs * Dom * Stage A)
  : Outcome A :=
  match st with
  | (t, d, Finished r) => mkOutcome t d r
  | (t, d, PendingFetch req k) =>
      prepend t (emit (ObsFetch req) (run w (k (server w req)) d))
  | (t, d, PendingJson resp k) => prepend t (run w (k (resp_json resp)) d)
  end.

(** *** Properties of handler programs *)

(** [Emits Q p]: every observation on every path of [p] satisfies [Q]. *)
Fixpoint Emits {A} (Q : Obs -> Prop) (p : Prog A) : Prop :=
  match p with
  | Ret _ | Throw _ => True
  | ReadDom k => forall d, Emits Q (k d)
  | WriteDom _ k => Emits Q k
  | Alert m k => Q (ObsAlert m) /\ Emits Q k
  | Confirm m k => forall b, Q (ObsConfirm m b) /\ Emits Q (k b)
  | ConsoleError l e k => Q (ObsConsoleError l e) /\ Emits Q k
  | AwaitFetch r k => Q (ObsFetch r) /\ forall x, Emits Q (k x)
  | AwaitJson _ k => forall x, Emits Q (k x)
  end.

(** [Keeps f p]: however [p] runs, it leaves the part [f] of the page as it
    found it. *)
Definition Keeps {X A} (f : Dom -> X) (p : Prog A) : Prop :=
  forall w d, f (final (run w p d)) = f d.

(** *** Parts of the script *)

(** The part of [loadTemplates] that runs once the body is decoded. *)
Definition render_templates (L : Locale) (templates : Json) : Prog unit :=
  modify_dom (fun d =>
    set_templateSelect (select_clear (templateSelect d)) d) ;;
  len <- lift (get_length templates) ;;
  if strict_eq_zero len then
    modify_dom (fun d =>
      set_templateSelect
        (select_append (mkOption None (no_templates_text L) true)
           (templateSelect d)) d)
  else
    match templates with
    | JArr names => for_each names add_template_option
    | _ => raise (TypeError "templates.forEach is not a function")
    end.

(** What the submit listener does once its request has settled. *)
Definition chat_continuation (L : Locale) (o : Res Response) : Prog unit :=
  catch
    (response <- lift o ;;
     (if negb (resp_ok response) then
        raise (Error ("HTTP error! status: " ++ Str.of_Z (resp_status response)))
      else ret tt) ;;
     data <- json response ;;
     answer <- lift (get_prop data "response") ;;
     appendMessage "Potato" answer "bot-message" ;;
     log <- lift (get_prop data "debug_log") ;;
     updateDebugLog log)
    (fun error =>
       console_error "Error:" error ;;
       appendMessage (system_sender L) (Some (JStr (chat_error_text L)))
         "bot-message").

(** Every entry point of the script. *)
Definition handlers (L : Locale) : list (Prog unit) :=
  [ on_DOMContentLoaded L; chatForm_submit L; saveTemplateBtn_click L;
    loadTemplateBtn_click L; resetBtn_click L; deleteTemplateBtn_click L ].

(** The two localisations of the script. *)
Definition locales : list Locale := [en; ja].

(** *** The page *)

(** Everything on the page except the template selection control. *)
Definition outside_select (d : Dom)
  : string * list MessageEl * bool * list string * string :=
  (messageInput d, chatMessages d, chatWindow_atEnd d, debugLog d,
   templateNameInput d).

(** Something other than white space was typed into the message input. *)
Definition has_message (d : Dom) : Prop :=
  Str.is_empty (Str.trim (messageInput d)) = false.

(** A name was typed into the name input. *)
Definition has_name (d : Dom) : Prop :=
  Str.is_empty (Str.trim (templateNameInput d)) = false.

(** A template is selected and the control is enabled. *)
Definition has_selection (d : Dom) : Prop :=
  Str.is_empty (select_value (templateSelect d)) = false
  /\ sel_disabled (templateSelect d) = false.

(** The option rendered for a template name, and the placeholder. *)
Definition template_option (name : string) : OptionEl :=
  mkOption (Some name) name false.

Definition placeholder_option (L : Locale) : OptionEl :=
  mkOption None (no_templates_text L) true.

Definition append_options (names : list string) (s : SelectEl) : SelectEl :=
  fold_left (fun acc n => select_append (template_option n) acc) names s.

Definition user_turn (message : string) : MessageEl :=
  mkMessage ["message"; "user-message"] "You" message.

Definition bot_turn (text : string) : MessageEl :=
  mkMessage ["message"; "bot-message"] "Potato" text.

(** The turn shown on failure; it is styled like a bot turn. *)
Definition system_turn (L : Locale) : MessageEl :=
  mkMessage ["message"; "bot-message"] (system_sender L) (chat_error_text L).

(** The page with one more turn at the end of the chat. *)
Definition with_turn (t : MessageEl) (d : Dom) : Dom :=
  set_chatWindow_atEnd true (set_chatMessages (chatMessages d ++ [t]) d).

(** The page when the submit listener suspends on its request. *)
Definition after_user_turn (d : Dom) : Dom :=
  set_messageInput "" (with_turn (user_turn (Str.trim (messageInput d))) d).

(** *** Requests and traces *)

Definition save_request (d : Dom) : Request :=
  post_json "/templates/save" (name_payload (Str.trim (templateNameInput d))).

Definition load_request (d : Dom) : Request :=
  post_json "/templates/load" (name_payload (select_value (templateSelect d))).

Definition delete_request (d : Dom) : Request :=
  post_json "/templates/delete"
    (name_payload (select_value (templateSelect d))).

(** A request that carries a JSON document. *)
Definition carries_json (r : Request) : Prop :=
  req_method r = "POST"
  /\ req_headers r = [("Content-Type", "application/json")]
  /\ exists payload, req_body r = Some (JSON_stringify payload).

(** A request without headers or body. *)
Definition bare_get (r : Request) : Prop :=
  req_method r = "GET" /\ req_headers r = [] /\ req_body r = None.

Definition wire_ok (o : Obs) : Prop :=
  match o with
  | ObsFetch r =>
      (r = get "/templates" /\ bare_get r)
      \/ (req_url r <> "/templates" /\ carries_json r)
  | _ => True
  end.

(** Observations that are not requests. *)
Definition no_fetch (o : Obs) : Prop :=
  match o with ObsFetch _ => False | _ => True end.

(** The observations a refresh can make: its one request, and a line on
    the console. *)
Definition refresh_obs (o : Obs) : Prop :=
  match o with
  | ObsFetch r => r = get "/templates"
  | ObsConsoleError l _ => l = "Failed to load templates:"
  | ObsAlert _ | ObsConfirm _ _ => False
  end.

(** The number of template-list fetches in a trace: one per refresh. *)
Definition refresh_count (t : list Obs) : nat :=
  length (filter (fun r => String.eqb (req_url r) "/templates") (requests t)).

(** A trace with the wording of its confirmations blanked. *)
Definition erase_prompt (o : Obs) : Obs :=
  match o with
  | ObsConfirm _ b => ObsConfirm "" b
  | _ => o
  end.

(** *** Exchanges with the server *)

(** A template request succeeded: it resolved with a 2xx status, its body
    decoded, and the [success] field of the body could be shown.  The value
    is the message shown to the user. *)
Definition success_message (o : Res Response) : option string :=
  match o with
  | inl _ => None
  | inr r =>
      if resp_ok r then
        match resp_json r with
        | inl _ => None
        | inr body =>
            match get_prop body "success" with
            | inl _ => None
            | inr v =>
                match dom_string v with
                | inl _ => None
                | inr m => Some m
                end
            end
        end
      else None
  end.

(** The ways a chat exchange fails before a reply is in hand, with the
    error each one raises. *)
Inductive chat_failure : Res Response -> JsError -> Prop :=
| network_error e : chat_failure (inl e) e
| bad_status r :
    resp_ok r = false ->
    chat_failure (inr r)
      (Error ("HTTP error! status: " ++ Str.of_Z (resp_status r)))
| undecodable_body r e :
    resp_ok r = true -> resp_json r = inl e -> chat_failure (inr r) e.

(** A chat exchange produced a reply: the request resolved with a 2xx
    status, the body decoded to a value other than [null], and its
    [response] could be shown as text.  The value is the decoded body and
    the reply text. *)
Definition chat_reply (o : Res Response) : option (Json * string) :=
  match o with
  | inl _ => None
  | inr r =>
      if resp_ok r then
        match resp_json r with
        | inl _ => None
        | inr data =>
            match get_prop data "response" with
            | inl _ => None
            | inr answer =>
                match text_content answer with
                | inl _ => None
                | inr text => Some (data, text)
                end
            end
        end
      else None
  end.

(** The entries of the [debug_log] array of a body, if it has one. *)
Definition debug_entries (data : Json) : list Json :=
  match get_prop data "debug_log" with
  | inr (Some (JArr entries)) => entries
  | _ => []
  end.

(** Rendering debug log entries: every entry that precedes the first one
    that cannot be shown as text is attached. *)
Fixpoint rendered_entries (entries : list Json) : list string * option JsError :=
  match entries with
  | [] => ([], None)
  | x :: rest =>
      match text_content (Some x) with
      | inl e => ([], Some e)
      | inr s => let '(ss, r) := rendered_entries rest in (s :: ss, r)
      end
  end.

(** Every entry of the debug log can be shown as text. *)
Definition log_renders (data : Json) : bool :=
  match snd (rendered_entries (debug_entries data)) with
  | None => true
  | Some _ => false
  end.

(** *** Sample inputs *)

Definition sample_select : SelectEl :=
  mkSelect [template_option "calm"; template_option "angry"] (Some 1%nat) false.

Definition sample_dom : Dom :=
  mkDom "  hello potato " [mkMessage ["message"; "user-message"] "You" "hi"]
        false ["thinking"] sample_select " snapshot-1 ".

(** A world whose user answers every [confirm] with [yes] and whose server
    answers every request with [answer]. *)
Definition world_of (yes : bool) (answer : Res Response) : World :=
  mkWorld (fun _ => yes) (fun _ => answer).

Definition ok_with (body : Json) : Res Response :=
  inr (mkResponse 200 (inr body)).

(** A server that accepts every template request. *)
Definition accepting_world : World :=
  world_of true (ok_with (JObj [("success", JStr "Template loaded.")])).

Definition declining_world : World :=
  world_of false (ok_with (JObj [("success", JStr "Template loaded.")])).

Definition name_exists_world : World :=
  world_of true
    (inr (mkResponse 409 (inr (JObj [("error", JStr "name exists")])))).

(** A server that answers the template-list fetch with an error object
    instead of an array. *)
Definition error_body_world : World :=
  world_of true
    (inr (mkResponse 500 (inr (JObj [("error", JStr "database unavailable")])))).

(** A debug log entry that cannot be converted to a string: its own
    [toString] is the number 1. *)
Definition unprintable : Json := JObj [("toString", JNum 1)].

Definition unprintable_log_world : World :=
  world_of true
    (ok_with (JObj [("response", JStr "Hello!");
                    ("debug_log", JArr [JStr "mood: calm"; unprintable])])).

(** *** Further vocabulary *)

(** The entries [updateDebugLog] goes through: those of an array, none for
    any other value. *)
Definition shown_log (log : JsVal) : list Json :=
  match log with
  | Some (JArr entries) => entries
  | _ => []
  end.



(** The turns a settled chat request adds. *)
Definition further_turns (L : Locale) (o : Res Response) : list MessageEl :=
  match chat_reply o with
  | None => [system_turn L]
  | Some (data, text) =>
      if log_renders data then [bot_turn text]
      else [bot_turn text; system_turn L]
  end.

(** The page with the chat and the debug log emptied. *)
Definition views_cleared (d : Dom) : Dom :=
  set_debugLog [] (set_chatMessages [] d).

(** The part of the page the chat listener works on, and the part the
    template listeners work on. *)
Definition template_controls (d : Dom) : SelectEl * string :=
  (templateSelect d, templateNameInput d).

Definition chat_views (d : Dom) : string * list MessageEl * bool * list string :=
  (messageInput d, chatMessages d, chatWindow_atEnd d, debugLog d).

(** No template can be acted on: nothing is selected, or the control is
    disabled. *)
Definition no_selection (d : Dom) : Prop :=
  Str.is_empty (select_value (templateSelect d)) = true
  \/ sel_disabled (templateSelect d) = true.

(** A page whose message and name inputs hold only blanks and whose
    selection control holds only the placeholder. *)
Definition blank_dom : Dom :=
  mkDom "   " [] false ["old entry"]
        (mkSelect [placeholder_option en] None false) "  ".

(** A server that answers the chat with a reply and a two-line log. *)
Definition chatty_world : World :=
  world_of true
    (ok_with (JObj [("response", JStr "Hello!");
                    ("debug_log", JArr (map JStr ["mood: calm"; "memory: 3"]))])).

(** A server that cannot be reached. *)
Definition offline_world : World :=
  world_of true (inl (TypeError "Failed to fetch")).

(** Observations that are not dialogs. *)
Definition no_dialog (o : Obs) : Prop :=
  match o with
  | ObsAlert _ | ObsConfirm _ _ => False
  | _ => True
  end.

(* ===================================================================== *)
(** ** The JavaScript operations on small inputs *)
(* ===================================================================== *)

Example trim_strips_both_ends :
  Str.trim (String (Str.byte 9) "  hello potato   ") = "hello potato".
Proof. reflexivity. Qed.

Example trim_of_blanks_is_empty : Str.is_empty (Str.trim "    ") = true.
Proof. reflexivity. Qed.

Example stringify_name_payload :
  let q := String (Str.byte 34) "" in
  JSON_stringify (name_payload "calm")
  = "{" ++ q ++ "name" ++ q ++ ":" ++ q ++ "calm" ++ q ++ "}".
Proof. reflexivity. Qed.

Example stringify_escapes_quotes :
  let q := String (Str.byte 34) "" in
  let b := String (Str.byte 92) "" in
  JSON_stringify (JStr ("a" ++ q ++ "b")) = q ++ "a" ++ b ++ q ++ "b" ++ q.
Proof. reflexivity. Qed.

Example array_prints_through_join :
  to_string (JArr [JNum 3; JNull; JArr [JStr "x"; JBool true]; JObj []])
  = inr "3,,x,true,[object Object]".
Proof. reflexivity. Qed.

Example unprintable_does_not_print : to_string unprintable = inl cannot_convert.
Proof. reflexivity. Qed.

Example null_clears_text_but_prints_as_value :
  text_content (Some JNull) = inr "" /\ dom_string (Some JNull) = inr "null".
Proof. split; reflexivity. Qed.

Example status_ok_range :
  resp_ok (mkResponse 204 (inr JNull)) = true
  /\ resp_ok (mkResponse 304 (inr JNull)) = false
  /\ resp_ok (mkResponse 199 (inr JNull)) = false.
Proof. repeat split. Qed.

Example placeholder_is_not_selected :
  select_value (select_append (placeholder_option en) (select_clear sample_select))
  = "".
Proof. reflexivity. Qed.

Example blank_message_is_ignored :
  run accepting_world (chatForm_submit en)
    (set_messageInput "   " sample_dom)
  = mkOutcome [] (set_messageInput "   " sample_dom) (inr tt).
Proof. reflexivity. Qed.

(* ===================================================================== *)
(** ** Reasoning about runs *)
(* ===================================================================== *)

Lemma emit_and_then {A B} x (o : Outcome A) (f : A -> Dom -> Outcome B) :
  emit x (and_then o f) = and_then (emit x o) f.
Proof. unfold and_then, emit; cbn. destruct (result o); reflexivity. Qed.

Lemma emit_or_else {A} x (o : Outcome A) h :
  emit x (or_else o h) = or_else (emit x o) h.
Proof.
  unfold or_else, emit; cbn. destruct o as [t d [e | a]]; reflexivity.
Qed.

Lemma run_bind {A B} w (p : Prog A) (f : A -> Prog B) d :
  run w (pbind p f) d = and_then (run w p d) (fun a d' => run w (f a) d').
Proof.
  revert d.
  induction p as [a | e | k IH | d' k IH | m k IH | m k IH | l e k IH
                 | r k IH | r k IH]; intros d; cbn.
  - unfold and_then, prepend; cbn. now destruct (run w (f a) d).
  - reflexivity.
  - apply IH.
  - apply IH.
  - rewrite IH. apply emit_and_then.
  - rewrite IH. apply emit_and_then.
  - rewrite IH. apply emit_and_then.
  - rewrite IH. apply emit_and_then.
  - apply IH.
Qed.

Lemma run_try_catch {A} w (p : Prog A) h d :
  run w (try_catch p h) d = or_else (run w p d) (fun e d' => run w (h e) d').
Proof.
  revert d.
  induction p as [a | e | k IH | d' k IH | m k IH | m k IH | l e k IH
                 | r k IH | r k IH]; intros d; cbn.
  - reflexivity.
  - unfold or_else, prepend; cbn. now destruct (run w (h e) d).
  - apply IH.
  - apply IH.
  - rewrite IH. apply emit_or_else.
  - rewrite IH. apply emit_or_else.
  - rewrite IH. apply emit_or_else.
  - rewrite IH. apply emit_or_else.
  - apply IH.
Qed.

Lemma run_resume {A} w (p : Prog A) d : run w p d = resume w (run_sync w p d).
Proof.
  revert d.
  induction p as [a | e | k IH | d' k IH | m k IH | m k IH | l e k IH
                 | r k IH | r k IH]; intros d; cbn;
    try reflexivity; try apply IH.
  - rewrite IH. now destruct (run_sync w k d) as [[t d1] [x | q c | q c]].
  - rewrite IH.
    now destruct (run_sync w (k (user_confirms w m)) d)
      as [[t d1] [x | q c | q c]].
  - rewrite IH. now destruct (run_sync w k d) as [[t d1] [x | q c | q c]].
  - unfold prepend; cbn. now destruct (run w (k (resp_json r)) d).
Qed.

(** *** What a handler can emit, whatever the world answers *)

Lemma Emits_sound {A} Q (p : Prog A) :
  Emits Q p -> forall w d, Forall Q (trace (run w p d)).
Proof.
  induction p as [a | e | k IH | d' k IH | m k IH | m k IH | l e k IH
                 | r k IH | r k IH]; cbn; intros H w d.
  - constructor.
  - constructor.
  - apply IH, H.
  - apply IH, H.
  - constructor; [apply H | apply IH, H].
  - destruct (H (user_confirms w m)) as [Hq Hk]. constructor; [exact Hq |].
    apply IH, Hk.
  - constructor; [apply H | apply IH, H].
  - destruct H as [Hq Hk]. constructor; [exact Hq | apply IH, Hk].
  - apply IH, H.
Qed.

Lemma Emits_bind {A B} Q (p : Prog A) (f : A -> Prog B) :
  Emits Q p -> (forall a, Emits Q (f a)) -> Emits Q (pbind p f).
Proof.
  intros Hp Hf.
  induction p as [a | e | k IH | d' k IH | m k IH | m k IH | l e k IH
                 | r k IH | r k IH]; cbn in *; auto.
  - split; [apply Hp | apply IH, Hp].
  - intros b. destruct (Hp b). split; auto.
  - split; [apply Hp | apply IH, Hp].
  - destruct Hp as [Hq Hk]. split; auto.
Qed.

Lemma Emits_try_catch {A} Q (p : Prog A) h :
  Emits Q p -> (forall e, Emits Q (h e)) -> Emits Q (try_catch p h).
Proof.
  intros Hp Hh.
  induction p as [a | e | k IH | d' k IH | m k IH | m k IH | l e k IH
                 | r k IH | r k IH]; cbn in *; auto.
  - split; [apply Hp | apply IH, Hp].
  - intros b. destruct (Hp b). split; auto.
  - split; [apply Hp | apply IH, Hp].
  - destruct Hp as [Hq Hk]. split; auto.
Qed.

Lemma Emits_lift {A} Q (r : Res A) : Emits Q (lift r).
Proof. destruct r; exact I. Qed.

Lemma Emits_modify Q f : Emits Q (modify_dom f).
Proof. intros d. exact I. Qed.

Lemma Emits_for_each {A} Q (l : list A) f :
  (forall x, Emits Q (f x)) -> Emits Q (for_each l f).
Proof.
  intros Hf. induction l as [| x l IH]; cbn; [exact I |].
  apply Emits_bind; auto.
Qed.

(* ===================================================================== *)
(** ** Facts about the script *)
(* ===================================================================== *)

Lemma append_options_options names s :
  sel_options (append_options names s)
  = (sel_options s ++ map template_option names)%list.
Proof.
  revert s. induction names as [| n names IH]; intros s; cbn.
  - now rewrite app_nil_r.
  - unfold append_options in IH. rewrite IH. cbn. now rewrite <- app_assoc.
Qed.

Lemma append_options_selected names s i :
  sel_selected s = Some i -> sel_selected (append_options names s) = Some i.
Proof.
  revert s. induction names as [| n names IH]; intros s H; cbn; [exact H |].
  apply IH. cbn. now rewrite H.
Qed.

(** Rendering a list of string names attaches one option per name. *)
Lemma render_names w names d :
  run w (for_each (map JStr names) add_template_option) d
  = mkOutcome [] (set_templateSelect (append_options names (templateSelect d)) d)
      (inr tt).
Proof.
  revert d. induction names as [| n names IH]; intros d; cbn.
  - now destruct d.
  - rewrite IH. reflexivity.
Qed.

Lemma render_entries w entries d :
  run w (for_each entries debug_entry) d
  = mkOutcome []
      (set_debugLog (debugLog d ++ fst (rendered_entries entries)) d)
      (match snd (rendered_entries entries) with
       | Some e => inl e
       | None => inr tt
       end).
Proof.
  revert d. induction entries as [| x entries IH]; intros d.
  - cbn. rewrite app_nil_r. now destruct d.
  - cbn [for_each]. rewrite run_bind. unfold debug_entry at 1.
    cbn [rendered_entries].
    destruct (text_content (Some x)) as [e | s]; cbn.
    + rewrite app_nil_r. now destruct d.
    + unfold and_then; cbn. rewrite IH. unfold prepend; cbn.
      destruct (rendered_entries entries) as [ss r]; cbn.
      now rewrite <- app_assoc.
Qed.

(* ===================================================================== *)
(** ** RefreshTemplateList *)
(* ===================================================================== *)

(** C7.  When the server answers the template-list fetch with an array of
    names, the selection control afterwards holds: for the empty array,
    exactly one option, the disabled placeholder, and nothing is selected;
    for a non-empty array, exactly one enabled option per name, in order,
    whose value is the name. *)
Theorem refresh_renders_names L w d r names :
  server w (get "/templates") = inr r ->
  resp_json r = inr (JArr (map JStr names)) ->
  let sel := templateSelect (final (run w (loadTemplates L) d)) in
  sel_options sel
  = match names with
    | [] => [placeholder_option L]
    | _ :: _ => map template_option names
    end
  /\ sel_selected sel = match names with [] => None | _ :: _ => Some 0%nat end
  /\ opt_disabled (placeholder_option L) = true
  /\ Forall (fun o => opt_disabled o = false) (map template_option names)
  /\ map option_value (map template_option names) = names.
Proof.
  intros Hsrv Hjson sel.
  assert (Hstatic :
    opt_disabled (placeholder_option L) = true
    /\ Forall (fun o => opt_disabled o = false) (map template_option names)
    /\ map option_value (map template_option names) = names).
  { split; [reflexivity | split].
    - apply Forall_forall. intros o Ho. apply in_map_iff in Ho.
      destruct Ho as [n [<- _]]. reflexivity.
    - rewrite map_map. cbn. apply map_id. }
  enough (Hsel :
    sel_options sel
    = match names with
      | [] => [placeholder_option L]
      | _ :: _ => map template_option names
      end
    /\ sel_selected sel = match names with [] => None | _ :: _ => Some 0%nat end)
    by (destruct Hsel; auto).
  subst sel. unfold loadTemplates. cbn. rewrite Hsrv. cbn. rewrite Hjson.
  destruct names as [| n names].
  - cbn. auto.
  - cbn. rewrite run_try_catch, render_names. cbn. split.
    + rewrite append_options_options. reflexivity.
    + apply append_options_selected. reflexivity.
Qed.

Lemma refresh_renders_names_witness :
  let w := world_of true (ok_with (JArr (map JStr ["calm"; "angry"; "sleepy"]))) in
  let sel := templateSelect (final (run w (loadTemplates en) sample_dom)) in
  sel_options sel
  = [template_option "calm"; template_option "angry"; template_option "sleepy"]
  /\ sel_selected sel = Some 0%nat
  /\ opt_disabled (placeholder_option en) = true
  /\ Forall (fun o => opt_disabled o = false)
       (map template_option ["calm"; "angry"; "sleepy"])
  /\ map option_value (map template_option ["calm"; "angry"; "sleepy"])
     = ["calm"; "angry"; "sleepy"].
Proof.
  exact (refresh_renders_names en
           (world_of true (ok_with (JArr (map JStr ["calm"; "angry"; "sleepy"]))))
           sample_dom (mkResponse 200 (inr (JArr (map JStr ["calm"; "angry"; "sleepy"]))))
           ["calm"; "angry"; "sleepy"] eq_refl eq_refl).
Defined.

(** *** What a refresh can and cannot do *)

Lemma Keeps_bind {X A B} (f : Dom -> X) (p : Prog A) (k : A -> Prog B) :
  Keeps f p -> (forall a, Keeps f (k a)) -> Keeps f (pbind p k).
Proof.
  intros Hp Hk w d. rewrite run_bind. unfold and_then.
  specialize (Hp w d). destruct (result (run w p d)) as [e | a]; cbn.
  - exact Hp.
  - rewrite Hk. exact Hp.
Qed.

Lemma Keeps_try_catch {X A} (f : Dom -> X) (p : Prog A) h :
  Keeps f p -> (forall e, Keeps f (h e)) -> Keeps f (try_catch p h).
Proof.
  intros Hp Hh w d. rewrite run_try_catch. unfold or_else.
  specialize (Hp w d). destruct (result (run w p d)) as [e | a]; cbn.
  - rewrite Hh. exact Hp.
  - exact Hp.
Qed.

Lemma Keeps_lift {X A} (f : Dom -> X) (r : Res A) : Keeps f (lift r).
Proof. intros w d. now destruct r. Qed.

Lemma Keeps_modify {X} (f : Dom -> X) g :
  (forall d, f (g d) = f d) -> Keeps f (modify_dom g).
Proof. intros H w d. cbn. apply H. Qed.

Lemma Keeps_for_each {X A} (f : Dom -> X) (l : list A) body :
  (forall x, Keeps f (body x)) -> Keeps f (for_each l body).
Proof.
  intros H. induction l as [| x l IH]; cbn.
  - intros w d. reflexivity.
  - apply Keeps_bind; auto.
Qed.

Lemma Keeps_await_fetch {X A} (f : Dom -> X) req (k : Res Response -> Prog A) :
  (forall x, Keeps f (k x)) -> Keeps f (AwaitFetch req k).
Proof. intros H w d. cbn. apply H. Qed.

Lemma Keeps_await_json {X A} (f : Dom -> X) resp (k : Res Json -> Prog A) :
  (forall x, Keeps f (k x)) -> Keeps f (AwaitJson resp k).
Proof. intros H w d. cbn. apply H. Qed.

Lemma loadTemplates_unfold L :
  loadTemplates L
  = try_catch
      (pbind (fetch (get "/templates")) (fun response =>
         pbind (json response) (render_templates L)))
      (fun error => console_error "Failed to load templates:" error).
Proof. reflexivity. Qed.

Lemma render_templates_keeps L templates :
  Keeps outside_select (render_templates L templates).
Proof.
  unfold render_templates.
  apply (Keeps_bind outside_select (modify_dom _)).
  { apply Keeps_modify. reflexivity. }
  intros _. apply (Keeps_bind outside_select (lift _)).
  { apply Keeps_lift. }
  intros len. destruct (strict_eq_zero len).
  { apply Keeps_modify. reflexivity. }
  destruct templates; try (intros w d; reflexivity).
  apply Keeps_for_each. intros x. unfold add_template_option.
  apply (Keeps_bind outside_select (lift _)); [apply Keeps_lift |].
  intros v. apply (Keeps_bind outside_select (lift _)); [apply Keeps_lift |].
  intros t. apply Keeps_modify. reflexivity.
Qed.

(** A refresh only ever touches the selection control. *)
Lemma loadTemplates_keeps L : Keeps outside_select (loadTemplates L).
Proof.
  rewrite loadTemplates_unfold.
  apply Keeps_try_catch; [| intros e w d; reflexivity].
  apply Keeps_await_fetch. intros [e | response]; [intros w d; reflexivity |].
  cbn [lift pbind]. apply Keeps_await_json.
  intros [e | templates]; [intros w d; reflexivity |].
  cbn [lift pbind]. apply render_templates_keeps.
Qed.

Lemma render_templates_emits Q L templates :
  Emits Q (render_templates L templates).
Proof.
  unfold render_templates.
  apply (Emits_bind Q (modify_dom _)); [apply Emits_modify |].
  intros _. apply (Emits_bind Q (lift _)); [apply Emits_lift |].
  intros len. destruct (strict_eq_zero len); [apply Emits_modify |].
  destruct templates; try exact I.
  apply Emits_for_each. intros x. unfold add_template_option.
  apply (Emits_bind Q (lift _)); [apply Emits_lift |].
  intros v. apply (Emits_bind Q (lift _)); [apply Emits_lift |].
  intros t. apply Emits_modify.
Qed.

Lemma loadTemplates_emits L : Emits refresh_obs (loadTemplates L).
Proof.
  rewrite loadTemplates_unfold.
  apply Emits_try_catch.
  - cbn. split; [reflexivity |]. intros [e | response]; cbn; [exact I |].
    intros [e | templates]; cbn; [exact I |].
    apply render_templates_emits.
  - intros e. cbn. auto.
Qed.

(** [loadTemplates] catches everything: the promise it returns never
    rejects, which is why its callers need not await it. *)
Lemma loadTemplates_never_throws L w d :
  result (run w (loadTemplates L) d) = inr tt.
Proof.
  rewrite loadTemplates_unfold, run_try_catch. unfold or_else.
  destruct (result (run w _ d)) as [e | []] eqn:E; cbn.
  - reflexivity.
  - exact E.
Qed.

Lemma dialogs_none t : Forall refresh_obs t -> dialogs t = [].
Proof.
  induction 1 as [| o t Ho _ IH]; [reflexivity |].
  destruct o; cbn in *; auto; contradiction.
Qed.

(** C3, as stated, fails: when rendering throws, the failure is logged but
    the selection control has already been emptied. *)
Lemma refresh_failure_empties_select :
  let out := run error_body_world (loadTemplates en) sample_dom in
  trace out
  = [ObsFetch (get "/templates");
     ObsConsoleError "Failed to load templates:"
       (TypeError "templates.forEach is not a function")]
  /\ sel_options (templateSelect sample_dom)
     = [template_option "calm"; template_option "angry"]
  /\ sel_options (templateSelect (final out)) = []
  /\ sel_options (templateSelect (final out))
     <> sel_options (templateSelect sample_dom).
Proof. cbn. repeat split. discriminate. Qed.

(** C3, amended.  When the template-list fetch rejects, or its body fails
    to decode, the failure is only logged to the console, no dialog is
    shown, and the whole page, the options of the selection control
    included, stays as it was.  Whatever else goes wrong in a refresh, the
    user is shown nothing, the promise does not reject, and nothing outside
    the selection control changes.  When the failure is that the decoded
    body is not an array, the selection control is left without options. *)
Theorem refresh_failure_is_silent L w d :
  let out := run w (loadTemplates L) d in
  (forall e,
     server w (get "/templates") = inl e
     \/ (exists r, server w (get "/templates") = inr r /\ resp_json r = inl e) ->
     out = mkOutcome
             [ObsFetch (get "/templates");
              ObsConsoleError "Failed to load templates:" e]
             d (inr tt))
  /\ (dialogs (trace out) = []
      /\ result out = inr tt
      /\ outside_select (final out) = outside_select d)
  /\ (forall r templates e,
        server w (get "/templates") = inr r ->
        resp_json r = inr templates ->
        (forall names, templates <> JArr names) ->
        In (ObsConsoleError "Failed to load templates:" e) (trace out) ->
        sel_options (templateSelect (final out)) = []).
Proof.
  intros out. subst out. split; [| split].
  - intros e H.
    destruct H as [H | [r [H Hr]]]; unfold loadTemplates; cbn; rewrite H; cbn.
    + reflexivity.
    + rewrite Hr. reflexivity.
  - split; [| split].
    + apply dialogs_none, Emits_sound, loadTemplates_emits.
    + apply loadTemplates_never_throws.
    + apply loadTemplates_keeps.
  - intros r templates e Hsrv Hbody Hshape.
    unfold loadTemplates. cbn. rewrite Hsrv. cbn. rewrite Hbody.
    destruct templates as [| b | n | s | names | fields]; cbn;
      try (intros _; reflexivity).
    + destruct (Z.of_nat (String.length s) =? 0)%Z; cbn;
        [intros [H | []]; discriminate H | intros _; reflexivity].
    + now destruct (Hshape names).
    + destruct (strict_eq_zero (assoc "length" fields)); cbn;
        [intros [H | []]; discriminate H | intros _; reflexivity].
Qed.

Lemma refresh_failure_is_silent_witness :
  run (world_of true (inl (TypeError "Failed to fetch"))) (loadTemplates en)
    sample_dom
  = mkOutcome
      [ObsFetch (get "/templates");
       ObsConsoleError "Failed to load templates:" (TypeError "Failed to fetch")]
      sample_dom (inr tt).
Proof.
  apply (proj1 (refresh_failure_is_silent en
                  (world_of true (inl (TypeError "Failed to fetch")))
                  sample_dom)).
  left. reflexivity.
Defined.

(* ===================================================================== *)
(** ** The requests on the wire *)
(* ===================================================================== *)

(** C4, as stated, fails: the template-list fetch is a plain GET, with no
    Content-Type header and no body. *)
Lemma template_list_fetch_is_bare :
  exists r,
    requests (trace (run (world_of true (ok_with (JArr []))) (loadTemplates en)
                       sample_dom)) = [r]
    /\ req_url r = "/templates"
    /\ req_headers r = []
    /\ req_body r = None
    /\ ~ carries_json r.
Proof.
  eexists. cbn. repeat split. intros [H _]. discriminate H.
Qed.

Lemma post_json_wire_ok url payload :
  url <> "/templates" -> wire_ok (ObsFetch (post_json url payload)).
Proof.
  intros H. right. split; [exact H |]. repeat split. now exists payload.
Qed.

Lemma loadTemplates_wire_ok L : Emits wire_ok (loadTemplates L).
Proof.
  rewrite loadTemplates_unfold.
  apply Emits_try_catch.
  - cbn. split; [left; repeat split |].
    intros [e | response]; cbn; [exact I |].
    intros [e | templates]; cbn; [exact I |].
    apply render_templates_emits.
  - intros e. cbn. auto.
Qed.

Ltac emits_step :=
  match goal with
  | |- True => exact I
  | |- _ /\ _ => split
  | |- forall _, _ => intro
  | |- wire_ok (ObsFetch (post_json _ _)) =>
      apply post_json_wire_ok; discriminate
  | |- wire_ok (ObsFetch (chat_request _)) =>
      apply post_json_wire_ok; discriminate
  | |- wire_ok _ => exact I
  | |- (get _ = get _ /\ _) \/ _ => left; repeat split
  | |- (_ = get _ /\ _) \/ _ =>
      right; split; [discriminate | repeat split; eexists; reflexivity]
  | |- Emits _ (loadTemplates _) => apply loadTemplates_wire_ok
  | |- Emits _ (lift _) => apply Emits_lift
  | |- Emits _ (modify_dom _) => apply Emits_modify
  | |- Emits _ (for_each _ _) => apply Emits_for_each
  | |- Emits _ (try_catch _ _) => apply Emits_try_catch
  | |- Emits _ (if ?b then _ else _) => destruct b
  | |- Emits _ (match ?x with _ => _ end) => destruct x
  | |- Emits _ _ => progress cbn
  | |- Emits _ (pbind _ _) => apply Emits_bind
  end.

Lemma chatForm_submit_wire_ok L : Emits wire_ok (chatForm_submit L).
Proof. unfold chatForm_submit. repeat emits_step. Qed.

Lemma saveTemplateBtn_click_wire_ok L : Emits wire_ok (saveTemplateBtn_click L).
Proof. unfold saveTemplateBtn_click. repeat emits_step. Qed.

Lemma handleLoadReset_wire_ok L action : Emits wire_ok (handleLoadReset L action).
Proof. unfold handleLoadReset. repeat emits_step. Qed.

Lemma deleteTemplateBtn_click_wire_ok L :
  Emits wire_ok (deleteTemplateBtn_click L).
Proof. unfold deleteTemplateBtn_click. repeat emits_step. Qed.

Lemma requests_wire_ok t :
  Forall wire_ok t ->
  Forall (fun r => (r = get "/templates" /\ bare_get r)
                   \/ (req_url r <> "/templates" /\ carries_json r))
    (requests t).
Proof.
  induction 1 as [| o t Ho _ IH]; cbn; [constructor |].
  destruct o; auto.
Qed.

(** C4, amended.  Every request the controller issues, from any of its
    entry points, is either the template-list fetch, a GET of /templates
    with no header and no body, or a POST to another endpoint that carries
    the single header Content-Type: application/json and a body produced by
    JSON.stringify (the chat, save, load and delete requests). *)
Theorem every_post_carries_json L p w d :
  In p (handlers L) ->
  Forall (fun r => (r = get "/templates" /\ bare_get r)
                   \/ (req_url r <> "/templates" /\ carries_json r))
    (requests (trace (run w p d))).
Proof.
  intros Hp. apply requests_wire_ok, Emits_sound.
  unfold handlers, In in Hp.
  destruct Hp as [<- | [<- | [<- | [<- | [<- | [<- | []]]]]]].
  - exact (loadTemplates_wire_ok L).
  - exact (chatForm_submit_wire_ok L).
  - exact (saveTemplateBtn_click_wire_ok L).
  - exact (handleLoadReset_wire_ok L "load").
  - exact (handleLoadReset_wire_ok L "reset").
  - exact (deleteTemplateBtn_click_wire_ok L).
Qed.

Lemma every_post_carries_json_witness :
  Forall (fun r => (r = get "/templates" /\ bare_get r)
                   \/ (req_url r <> "/templates" /\ carries_json r))
    (requests (trace (run (world_of true (ok_with (JObj [("success", JStr "saved")])))
                        (saveTemplateBtn_click en) sample_dom))).
Proof.
  apply (every_post_carries_json en (saveTemplateBtn_click en)).
  unfold handlers, In. right. right. left. reflexivity.
Defined.

(* ===================================================================== *)
(** ** Template operations *)
(* ===================================================================== *)

Lemma success_message_inv o m :
  success_message o = Some m ->
  exists r body v,
    o = inr r /\ resp_ok r = true /\ resp_json r = inr body
    /\ get_prop body "success" = inr v /\ dom_string v = inr m.
Proof.
  unfold success_message. destruct o as [e | r]; [discriminate |].
  destruct (resp_ok r) eqn:Hok; [| discriminate].
  destruct (resp_json r) as [e | body] eqn:Hbody; [discriminate |].
  destruct (get_prop body "success") as [e | v] eqn:Hv; [discriminate |].
  destruct (dom_string v) as [e | m'] eqn:Hm; [discriminate |].
  intros [= <-]. exists r, body, v. auto.
Qed.

Lemma requests_none t : Forall no_fetch t -> requests t = [].
Proof.
  induction 1 as [| o t Ho _ IH]; [reflexivity |].
  destruct o; cbn in *; auto; contradiction.
Qed.

(** A refresh issues exactly one request, the template-list fetch. *)
Lemma loadTemplates_requests L w d :
  requests (trace (run w (loadTemplates L) d)) = [get "/templates"].
Proof.
  unfold loadTemplates. cbn.
  destruct (server w (get "/templates")) as [e | r]; cbn; [reflexivity |].
  destruct (resp_json r) as [e | templates]; cbn; [reflexivity |].
  f_equal.
  change (requests (trace (run w
    (try_catch (render_templates L templates)
       (fun error => console_error "Failed to load templates:" error)) d)) = []).
  apply requests_none, Emits_sound, Emits_try_catch.
  - apply render_templates_emits.
  - intros e. cbn. auto.
Qed.

(** C8.  When the save request resolves with a status outside 200-299 and a
    body that is an object whose [error] is a string, the user is shown the
    save-error message built from that string, and nothing else happens:
    the page, the name input included, is unchanged, and the only request
    is the save request, so the template list is not refreshed. *)
Theorem save_rejected_by_server L w d status fields reason :
  has_name d ->
  server w (save_request d) = inr (mkResponse status (inr (JObj fields))) ->
  (status < 200 \/ 299 < status)%Z ->
  assoc "error" fields = Some (JStr reason) ->
  let out := run w (saveTemplateBtn_click L) d in
  out = mkOutcome
          [ObsFetch (save_request d); ObsAlert (save_error_text L reason)]
          d (inr tt)
  /\ templateNameInput (final out) = templateNameInput d
  /\ requests (trace out) = [save_request d].
Proof.
  intros Hname Hsrv Hstatus Herr out.
  assert (Hout : out = mkOutcome
            [ObsFetch (save_request d); ObsAlert (save_error_text L reason)]
            d (inr tt)).
  { subst out. unfold saveTemplateBtn_click, has_name, save_request in *.
    cbn. rewrite Hname. cbn. rewrite Hsrv. cbn.
    replace (resp_ok _) with false.
    - cbn. rewrite Herr. reflexivity.
    - unfold resp_ok; cbn. symmetry. apply andb_false_iff.
      destruct Hstatus; [left | right]; apply Z.leb_gt; assumption. }
  rewrite Hout. auto.
Qed.

Lemma save_rejected_by_server_witness :
  let out := run name_exists_world (saveTemplateBtn_click en) sample_dom in
  out = mkOutcome
          [ObsFetch (save_request sample_dom);
           ObsAlert "Error saving template: name exists"]
          sample_dom (inr tt)
  /\ templateNameInput (final out) = " snapshot-1 "
  /\ requests (trace out) = [save_request sample_dom].
Proof.
  apply (save_rejected_by_server en name_exists_world sample_dom 409
           [("error", JStr "name exists")] "name exists").
  - reflexivity.
  - reflexivity.
  - right. reflexivity.
  - reflexivity.
Defined.

(** C5.  When a load or a reset succeeds, the chat turns and the debug log
    are both emptied, the selection control is exactly as before, and the
    only request issued is the load request: the template list is not
    fetched again. *)
Theorem load_reset_success_clears_views L action w d msg :
  has_selection d ->
  user_confirms w (confirmationText L action (select_value (templateSelect d)))
    = true ->
  success_message (server w (load_request d)) = Some msg ->
  let out := run w (handleLoadReset L action) d in
  chatMessages (final out) = []
  /\ debugLog (final out) = []
  /\ templateSelect (final out) = templateSelect d
  /\ requests (trace out) = [load_request d]
  /\ out = mkOutcome
             [ObsConfirm
                (confirmationText L action (select_value (templateSelect d)))
                true;
              ObsFetch (load_request d); ObsAlert msg]
             (set_debugLog [] (set_chatMessages [] d)) (inr tt).
Proof.
  intros [Hsel Hen] Hyes Hok out.
  apply success_message_inv in Hok.
  destruct Hok as [r [body [v [Hsrv [Hr [Hbody [Hv Hm]]]]]]].
  assert (Hout : out = mkOutcome
             [ObsConfirm
                (confirmationText L action (select_value (templateSelect d)))
                true;
              ObsFetch (load_request d); ObsAlert msg]
             (set_debugLog [] (set_chatMessages [] d)) (inr tt)).
  { subst out. unfold handleLoadReset, load_request in *. cbn.
    rewrite Hsel, Hen. cbn. rewrite Hyes. cbn. rewrite Hsrv. cbn.
    rewrite Hbody. cbn. rewrite Hr, Hv. cbn. rewrite Hm. reflexivity. }
  rewrite Hout. cbn. auto.
Qed.

Lemma load_reset_success_clears_views_witness :
  let out := run accepting_world (resetBtn_click en) sample_dom in
  chatMessages (final out) = []
  /\ debugLog (final out) = []
  /\ templateSelect (final out) = sample_select
  /\ requests (trace out) = [load_request sample_dom]
  /\ out = mkOutcome
             [ObsConfirm (confirmationText en "reset" "angry") true;
              ObsFetch (load_request sample_dom); ObsAlert "Template loaded."]
             (set_debugLog [] (set_chatMessages [] sample_dom)) (inr tt).
Proof.
  apply (load_reset_success_clears_views en "reset" accepting_world sample_dom
           "Template loaded.").
  - split; reflexivity.
  - reflexivity.
  - reflexivity.
Defined.

(** C10.  With a template selected, declining the confirmation of a load, a
    reset or a delete ends the handler there: the dialog is the only thing
    that happened, no request was issued, and the page is unchanged. *)
Theorem declined_confirmation_is_a_no_op L action w d :
  has_selection d ->
  (user_confirms w
     (confirmationText L action (select_value (templateSelect d))) = false ->
   run w (handleLoadReset L action) d
   = mkOutcome
       [ObsConfirm
          (confirmationText L action (select_value (templateSelect d))) false]
       d (inr tt))
  /\ (user_confirms w
        (delete_confirm_text L (select_value (templateSelect d))) = false ->
      run w (deleteTemplateBtn_click L) d
      = mkOutcome
          [ObsConfirm
             (delete_confirm_text L (select_value (templateSelect d))) false]
          d (inr tt)).
Proof.
  intros [Hsel Hen]. split; intros Hno.
  - unfold handleLoadReset. cbn. rewrite Hsel, Hen. cbn. rewrite Hno.
    reflexivity.
  - unfold deleteTemplateBtn_click. cbn. rewrite Hsel, Hen. cbn. rewrite Hno.
    reflexivity.
Qed.

Lemma declined_confirmation_is_a_no_op_witness :
  (run declining_world (loadTemplateBtn_click en) sample_dom
   = mkOutcome [ObsConfirm (confirmationText en "load" "angry") false]
       sample_dom (inr tt))
  /\ (run declining_world (resetBtn_click en) sample_dom
      = mkOutcome [ObsConfirm (confirmationText en "reset" "angry") false]
          sample_dom (inr tt))
  /\ (run declining_world (deleteTemplateBtn_click en) sample_dom
      = mkOutcome [ObsConfirm (delete_confirm_text en "angry") false]
          sample_dom (inr tt)).
Proof.
  assert (Hsel : has_selection sample_dom) by (split; reflexivity).
  split; [| split].
  - apply (proj1 (declined_confirmation_is_a_no_op en "load" declining_world
                    sample_dom Hsel)). reflexivity.
  - apply (proj1 (declined_confirmation_is_a_no_op en "reset" declining_world
                    sample_dom Hsel)). reflexivity.
  - apply (proj2 (declined_confirmation_is_a_no_op en "load" declining_world
                    sample_dom Hsel)). reflexivity.
Defined.

Lemma refresh_count_loadTemplates L w d :
  refresh_count (trace (run w (loadTemplates L) d)) = 1%nat.
Proof. unfold refresh_count. now rewrite loadTemplates_requests. Qed.

(** A caller's [catch] never sees a refresh fail. *)
Lemma run_refresh_in_try L w h d :
  run w (try_catch (loadTemplates L) h) d = run w (loadTemplates L) d.
Proof.
  rewrite run_try_catch. unfold or_else.
  now rewrite loadTemplates_never_throws.
Qed.

(** C6.  A successful save, and a successful confirmed delete, run
    [loadTemplates] exactly once, after the success message: the run of the
    listener is the request, the message, and then one run of
    [loadTemplates], so the trace holds exactly one template-list fetch.
    When the request fails the listener issues no request but its own, so
    the template list is not refreshed. *)
Theorem refresh_once_after_save_or_delete L w d :
  (has_name d ->
   let out := run w (saveTemplateBtn_click L) d in
   match success_message (server w (save_request d)) with
   | Some msg =>
       out = prepend [ObsFetch (save_request d); ObsAlert msg]
               (run w (loadTemplates L) (set_templateNameInput "" d))
       /\ refresh_count (trace out) = 1%nat
   | None =>
       requests (trace out) = [save_request d]
       /\ refresh_count (trace out) = 0%nat
   end)
  /\ (has_selection d ->
      user_confirms w
        (delete_confirm_text L (select_value (templateSelect d))) = true ->
      let out := run w (deleteTemplateBtn_click L) d in
      match success_message (server w (delete_request d)) with
      | Some msg =>
          out = prepend
                  [ObsConfirm
                     (delete_confirm_text L (select_value (templateSelect d)))
                     true;
                   ObsFetch (delete_request d); ObsAlert msg]
                  (run w (loadTemplates L) d)
          /\ refresh_count (trace out) = 1%nat
      | None =>
          requests (trace out) = [delete_request d]
          /\ refresh_count (trace out) = 0%nat
      end).
Proof.
  split.
  - intros Hname out. subst out.
    unfold saveTemplateBtn_click, save_request, has_name in *.
    cbn. rewrite Hname. cbn.
    destruct (server w _) as [e | r]; cbn; [split; reflexivity |].
    destruct (resp_json r) as [e | body]; cbn;
      [destruct (resp_ok r); split; reflexivity |].
    destruct (resp_ok r); cbn.
    + destruct (get_prop body "success") as [e | v]; cbn;
        [split; reflexivity |].
      destruct (dom_string v) as [e | m]; cbn; [split; reflexivity |].
      rewrite run_refresh_in_try. split; [reflexivity |].
      apply (refresh_count_loadTemplates L w (set_templateNameInput "" d)).
    + destruct (get_prop body "error") as [e | v]; cbn;
        [split; reflexivity |].
      destruct (error_of v); split; reflexivity.
  - intros [Hsel Hen] Hyes out. subst out.
    unfold deleteTemplateBtn_click, delete_request.
    cbn. rewrite Hsel, Hen. cbn. rewrite Hyes. cbn.
    destruct (server w _) as [e | r]; cbn; [split; reflexivity |].
    destruct (resp_json r) as [e | body]; cbn;
      [destruct (resp_ok r); split; reflexivity |].
    destruct (resp_ok r); cbn.
    + destruct (get_prop body "success") as [e | v]; cbn;
        [split; reflexivity |].
      destruct (dom_string v) as [e | m]; cbn; [split; reflexivity |].
      rewrite run_refresh_in_try. split; [reflexivity |].
      apply (refresh_count_loadTemplates L w d).
    + destruct (get_prop body "error") as [e | v]; cbn;
        [split; reflexivity |].
      destruct (error_of v); split; reflexivity.
Qed.

Lemma refresh_once_after_save_or_delete_witness :
  (run accepting_world (saveTemplateBtn_click en) sample_dom
   = prepend [ObsFetch (save_request sample_dom); ObsAlert "Template loaded."]
       (run accepting_world (loadTemplates en)
          (set_templateNameInput "" sample_dom))
   /\ refresh_count
        (trace (run accepting_world (saveTemplateBtn_click en) sample_dom))
      = 1%nat)
  /\ (requests (trace (run name_exists_world (deleteTemplateBtn_click en)
                         sample_dom))
      = [delete_request sample_dom]
      /\ refresh_count
           (trace (run name_exists_world (deleteTemplateBtn_click en)
                     sample_dom))
         = 0%nat).
Proof.
  split.
  - apply (proj1 (refresh_once_after_save_or_delete en accepting_world
                    sample_dom)).
    reflexivity.
  - apply (proj2 (refresh_once_after_save_or_delete en name_exists_world
                    sample_dom)).
    + split; reflexivity.
    + reflexivity.
Defined.

(** *** Load and reset *)

Lemma prompts_differ L t :
  In L locales -> confirmationText L "load" t <> confirmationText L "reset" t.
Proof.
  intros HL. unfold locales, In in HL.
  destruct HL as [<- | [<- | []]]; cbv [confirmationText String.eqb Ascii.eqb Bool.eqb
    en ja load_confirm_text reset_confirm_text String.append];
    intros H; discriminate H.
Qed.

(** After the load request is issued nothing else goes on the wire. *)
Lemma load_continuation_requests L w d (o : Res Response) :
  requests (trace (run w
    (try_catch
       (response <- lift o ;;
        result <- json response ;;
        if resp_ok response then
          success <- lift (get_prop result "success") ;;
          msg <- lift (dom_string success) ;;
          alert msg ;;
          modify_dom (set_chatMessages []) ;;
          modify_dom (set_debugLog [])
        else
          error <- lift (get_prop result "error") ;;
          e <- lift (error_of error) ;;
          raise e)
       (fun error => alert (load_error_text L (err_message error)))) d)) = [].
Proof.
  apply requests_none, Emits_sound.
  repeat emits_step.
Qed.

(** C2.  With a template selected and both confirmations accepted, the load
    button and the reset button issue the same single request: a POST to
    /templates/load with the header Content-Type: application/json and the
    body [JSON.stringify({name: selectedTemplate})].  The two runs are the
    same in every other respect as well (final page, result, and trace up to
    the wording of the confirmation), and in both localisations the two
    wordings are different. *)
Theorem load_and_reset_issue_same_request L w d :
  In L locales ->
  has_selection d ->
  user_confirms w (confirmationText L "load" (select_value (templateSelect d)))
    = true ->
  user_confirms w (confirmationText L "reset" (select_value (templateSelect d)))
    = true ->
  let load := run w (loadTemplateBtn_click L) d in
  let reset := run w (resetBtn_click L) d in
  let request :=
    mkRequest "/templates/load" "POST" [("Content-Type", "application/json")]
      (Some (JSON_stringify
               (JObj [("name", JStr (select_value (templateSelect d)))]))) in
  requests (trace load) = [request]
  /\ requests (trace reset) = [request]
  /\ map erase_prompt (trace load) = map erase_prompt (trace reset)
  /\ final load = final reset
  /\ result load = result reset
  /\ confirmationText L "load" (select_value (templateSelect d))
     <> confirmationText L "reset" (select_value (templateSelect d)).
Proof.
  intros HL [Hsel Hen] Hload Hreset load reset request.
  subst load reset request.
  unfold loadTemplateBtn_click, resetBtn_click, handleLoadReset.
  cbn. rewrite Hsel, Hen. cbn. rewrite Hload, Hreset. cbn.
  split; [| split; [| split; [| split; [| split]]]];
    try reflexivity.
  - f_equal. apply (load_continuation_requests L).
  - f_equal. apply (load_continuation_requests L).
  - apply prompts_differ, HL.
Qed.

Lemma load_and_reset_issue_same_request_witness :
  let load := run accepting_world (loadTemplateBtn_click ja) sample_dom in
  let reset := run accepting_world (resetBtn_click ja) sample_dom in
  let request :=
    mkRequest "/templates/load" "POST" [("Content-Type", "application/json")]
      (Some (JSON_stringify (JObj [("name", JStr "angry")]))) in
  requests (trace load) = [request]
  /\ requests (trace reset) = [request]
  /\ map erase_prompt (trace load) = map erase_prompt (trace reset)
  /\ final load = final reset
  /\ result load = result reset
  /\ confirmationText ja "load" "angry" <> confirmationText ja "reset" "angry".
Proof.
  apply (load_and_reset_issue_same_request ja accepting_world sample_dom).
  - right. left. reflexivity.
  - split; reflexivity.
  - reflexivity.
  - reflexivity.
Defined.

(* ===================================================================== *)
(** ** SendMessage *)
(* ===================================================================== *)

(** The synchronous part of a submission: the user turn is on the page and
    the input is cleared when the request leaves. *)
Lemma chatForm_submit_sync L w d :
  has_message d ->
  run_sync w (chatForm_submit L) d
  = ([], after_user_turn d,
     PendingFetch (chat_request (Str.trim (messageInput d)))
       (chat_continuation L)).
Proof.
  intros Hmsg. unfold chatForm_submit, has_message in *. cbn.
  rewrite Hmsg. reflexivity.
Qed.

Lemma chatForm_submit_run L w d :
  has_message d ->
  run w (chatForm_submit L) d
  = emit (ObsFetch (chat_request (Str.trim (messageInput d))))
      (run w (chat_continuation L
                (server w (chat_request (Str.trim (messageInput d)))))
         (after_user_turn d)).
Proof.
  intros Hmsg. rewrite run_resume, (chatForm_submit_sync L w d Hmsg).
  reflexivity.
Qed.

Lemma chat_continuation_failure L w o err d :
  chat_failure o err ->
  run w (chat_continuation L o) d
  = mkOutcome [ObsConsoleError "Error:" err] (with_turn (system_turn L) d)
      (inr tt).
Proof.
  intros H. unfold chat_continuation.
  destruct H as [e | r Hok | r e Hok Hbody]; cbn.
  - reflexivity.
  - rewrite Hok. reflexivity.
  - rewrite Hok. cbn. rewrite Hbody. reflexivity.
Qed.

(** C9.  When the chat request fails through a network error, a status
    outside 200-299 or a body that does not decode, the listener appends,
    after the user turn, a single System turn whose sender and text are the
    fixed strings of the localisation; the error itself goes to
    [console.error] only: no dialog is shown and the debug log is left as
    it was. *)
Theorem chat_failure_shows_fixed_system_turn L w d err :
  has_message d ->
  chat_failure (server w (chat_request (Str.trim (messageInput d)))) err ->
  let out := run w (chatForm_submit L) d in
  trace out
  = [ObsFetch (chat_request (Str.trim (messageInput d)));
     ObsConsoleError "Error:" err]
  /\ chatMessages (final out)
     = (chatMessages d
        ++ [user_turn (Str.trim (messageInput d)); system_turn L])%list
  /\ dialogs (trace out) = []
  /\ debugLog (final out) = debugLog d
  /\ result out = inr tt.
Proof.
  intros Hmsg Hfail out. subst out.
  rewrite (chatForm_submit_run L w d Hmsg).
  rewrite (chat_continuation_failure L w _ err _ Hfail). cbn.
  rewrite <- app_assoc. repeat split.
Qed.

Lemma chat_failure_shows_fixed_system_turn_witness :
  let out :=
    run (world_of true (inr (mkResponse 502 (inl (mkError "SyntaxError" "Unexpected token <")))))
      (chatForm_submit ja) sample_dom in
  trace out
  = [ObsFetch (chat_request "hello potato");
     ObsConsoleError "Error:" (Error "HTTP error! status: 502")]
  /\ chatMessages (final out)
     = (chatMessages sample_dom ++ [user_turn "hello potato"; system_turn ja])%list
  /\ dialogs (trace out) = []
  /\ debugLog (final out) = ["thinking"]
  /\ result out = inr tt.
Proof.
  apply (chat_failure_shows_fixed_system_turn ja
           (world_of true (inr (mkResponse 502 (inl (mkError "SyntaxError" "Unexpected token <")))))
           sample_dom (Error "HTTP error! status: 502")).
  - reflexivity.
  - apply (bad_status (mkResponse 502 (inl (mkError "SyntaxError" "Unexpected token <")))).
    reflexivity.
Defined.

Lemma string_entries_render l : rendered_entries (map JStr l) = (l, None).
Proof.
  induction l as [| s l IH]; cbn; [reflexivity |]. now rewrite IH.
Qed.

Lemma run_updateDebugLog w log d :
  run w (updateDebugLog log) d
  = match log with
    | Some (JArr entries) =>
        mkOutcome [] (set_debugLog (fst (rendered_entries entries)) d)
          (match snd (rendered_entries entries) with
           | Some e => inl e
           | None => inr tt
           end)
    | _ => mkOutcome [] (set_debugLog [] d) (inr tt)
    end.
Proof.
  unfold updateDebugLog. cbn.
  destruct log as [[| b | n | s | entries | fields] |]; cbn;
    try reflexivity.
  - now destruct b.
  - now destruct (negb (n =? 0)%Z).
  - now destruct (negb (Str.is_empty s)).
  - rewrite render_entries. reflexivity.
Qed.

Arguments updateDebugLog : simpl never.

(** The turns a settled chat request adds to the page, whatever the page
    holds at that moment. *)
Lemma chat_continuation_turns L w o d :
  chatMessages (final (run w (chat_continuation L o) d))
  = (chatMessages d
     ++ match chat_reply o with
        | None => [system_turn L]
        | Some (data, text) =>
            if log_renders data then [bot_turn text]
            else [bot_turn text; system_turn L]
        end)%list.
Proof.
  unfold chat_continuation, chat_reply.
  destruct o as [e | r]; cbn; [reflexivity |].
  destruct (resp_ok r); cbn; [| reflexivity].
  destruct (resp_json r) as [e | data]; cbn; [reflexivity |].
  destruct (get_prop data "response") as [e | answer] eqn:Hanswer; cbn;
    [reflexivity |].
  destruct (text_content answer) as [e | text]; cbn; [reflexivity |].
  unfold log_renders, debug_entries.
  destruct (get_prop data "debug_log") as [e | log] eqn:Hlog; cbn.
  { destruct data; discriminate. }
  rewrite run_try_catch, run_updateDebugLog. unfold or_else.
  destruct log as [[| b | n | s | entries | fields] |]; cbn; try reflexivity.
  destruct (snd (rendered_entries entries)); cbn; [| reflexivity].
  now rewrite <- app_assoc.
Qed.

(** C1, as stated, fails: a reply whose debug log cannot be rendered adds
    two turns after the user turn, the Bot turn and then a System turn. *)
Lemma sendMessage_can_add_two_turns :
  let out := run unprintable_log_world (chatForm_submit en) sample_dom in
  Str.trim (messageInput sample_dom) = "hello potato"
  /\ chatMessages (final out)
     = (chatMessages sample_dom
        ++ [user_turn "hello potato"; bot_turn "Hello!"; system_turn en])%list
  /\ trace out
     = [ObsFetch (chat_request "hello potato");
        ObsConsoleError "Error:" cannot_convert].
Proof. repeat split. Qed.

(** C1, amended.  For a message input that is not empty after trimming,
    the submit listener appends exactly one User turn before it suspends on
    the chat request.  Once the request has settled it appends, to whatever
    the chat then holds: a single System turn when there is no reply (the
    request was rejected, the status is outside 200-299, the body did not
    decode or is [null], or its [response] cannot be shown as text); a
    single Bot turn when there is a reply and every entry of its debug log
    can be shown as text, which is always so for a log of strings; and the
    Bot turn followed by a System turn when there is a reply but an entry
    of its debug log cannot be shown.  So one or two turns follow the User
    turn, never none. *)
Theorem sendMessage_turns L w d :
  has_message d ->
  exists k,
    run_sync w (chatForm_submit L) d
    = ([], after_user_turn d,
       PendingFetch (chat_request (Str.trim (messageInput d))) k)
    /\ chatMessages (after_user_turn d)
       = (chatMessages d ++ [user_turn (Str.trim (messageInput d))])%list
    /\ (forall o d',
          chatMessages (final (run w (k o) d'))
          = (chatMessages d'
             ++ match chat_reply o with
                | None => [system_turn L]
                | Some (data, text) =>
                    if log_renders data then [bot_turn text]
                    else [bot_turn text; system_turn L]
                end)%list)
    /\ (forall r text entries d',
          resp_ok r = true ->
          resp_json r
          = inr (JObj [("response", JStr text);
                       ("debug_log", JArr (map JStr entries))]) ->
          chatMessages (final (run w (k (inr r)) d'))
          = (chatMessages d' ++ [bot_turn text])%list).
Proof.
  intros Hmsg. exists (chat_continuation L).
  split; [apply chatForm_submit_sync, Hmsg |].
  split; [reflexivity |].
  split; [intros o d'; apply chat_continuation_turns |].
  intros r text entries d' Hok Hbody.
  rewrite chat_continuation_turns. cbn. rewrite Hok, Hbody. cbn.
  unfold log_renders, debug_entries. cbn.
  now rewrite string_entries_render.
Qed.

Lemma sendMessage_turns_witness :
  exists k,
    run_sync accepting_world (chatForm_submit en) sample_dom
    = ([], after_user_turn sample_dom,
       PendingFetch (chat_request "hello potato") k)
    /\ chatMessages (after_user_turn sample_dom)
       = (chatMessages sample_dom ++ [user_turn "hello potato"])%list
    /\ (forall o d',
          chatMessages (final (run accepting_world (k o) d'))
          = (chatMessages d'
             ++ match chat_reply o with
                | None => [system_turn en]
                | Some (data, text) =>
                    if log_renders data then [bot_turn text]
                    else [bot_turn text; system_turn en]
                end)%list)
    /\ (forall r text entries d',
          resp_ok r = true ->
          resp_json r
          = inr (JObj [("response", JStr text);
                       ("debug_log", JArr (map JStr entries))]) ->
          chatMessages (final (run accepting_world (k (inr r)) d'))
          = (chatMessages d' ++ [bot_turn text])%list).
Proof.
  apply (sendMessage_turns en accepting_world sample_dom).
  reflexivity.
Defined.


(* ===================================================================== *)
(** ** Validation: the requests that are never sent *)
(* ===================================================================== *)

(** X1.  A message input that is empty or holds only white space makes the
    submit listener return at once: nothing is appended, no request is
    issued, and the input keeps what was typed. *)
Theorem blank_message_is_a_no_op L w d :
  Str.is_empty (Str.trim (messageInput d)) = true ->
  run w (chatForm_submit L) d = mkOutcome [] d (inr tt)
  /\ run_sync w (chatForm_submit L) d = ([], d, Finished (inr tt)).
Proof.
  intros H. unfold chatForm_submit. cbn. rewrite H. split; reflexivity.
Qed.

Lemma blank_message_is_a_no_op_witness :
  run accepting_world (chatForm_submit ja) blank_dom
  = mkOutcome [] blank_dom (inr tt)
  /\ run_sync accepting_world (chatForm_submit ja) blank_dom
     = ([], blank_dom, Finished (inr tt)).
Proof.
  apply (blank_message_is_a_no_op ja accepting_world blank_dom).
  reflexivity.
Defined.

(** X2.  Saving with a name input that is empty or holds only white space
    shows the enter-a-name alert and nothing else: no request is issued and
    the page is unchanged. *)
Theorem save_without_name_only_alerts L w d :
  Str.is_empty (Str.trim (templateNameInput d)) = true ->
  run w (saveTemplateBtn_click L) d
  = mkOutcome [ObsAlert (enter_name_text L)] d (inr tt).
Proof.
  intros H. unfold saveTemplateBtn_click. cbn. rewrite H. reflexivity.
Qed.

Lemma save_without_name_only_alerts_witness :
  run accepting_world (saveTemplateBtn_click en) blank_dom
  = mkOutcome [ObsAlert "Please enter a name for the template."] blank_dom
      (inr tt).
Proof.
  apply (save_without_name_only_alerts en accepting_world blank_dom).
  reflexivity.
Defined.

(** X3.  When nothing is selected, or the selection control is disabled,
    the load, reset and delete listeners show the no-selection alert and
    stop: no confirmation is asked, no request is issued, and the page is
    unchanged. *)
Theorem no_selection_only_alerts L action w d :
  no_selection d ->
  run w (handleLoadReset L action) d
  = mkOutcome [ObsAlert (no_selection_text L)] d (inr tt)
  /\ run w (deleteTemplateBtn_click L) d
     = mkOutcome [ObsAlert (no_selection_text L)] d (inr tt).
Proof.
  intros H.
  assert (Hguard : Str.is_empty (select_value (templateSelect d))
                   || sel_disabled (templateSelect d) = true).
  { destruct H as [H | H]; rewrite H; [reflexivity | apply orb_true_r]. }
  unfold handleLoadReset, deleteTemplateBtn_click. cbn. rewrite Hguard.
  split; reflexivity.
Qed.

Lemma no_selection_only_alerts_witness :
  run accepting_world (handleLoadReset en "reset") blank_dom
  = mkOutcome [ObsAlert "No template selected."] blank_dom (inr tt)
  /\ run accepting_world (deleteTemplateBtn_click en) blank_dom
     = mkOutcome [ObsAlert "No template selected."] blank_dom (inr tt).
Proof.
  apply (no_selection_only_alerts en "reset" accepting_world blank_dom).
  left. reflexivity.
Defined.

(* ===================================================================== *)
(** ** The debug log *)
(* ===================================================================== *)

(** X4.  [updateDebugLog] replaces the debug log and touches nothing else:
    the log it leaves holds the entries of its argument that were rendered
    and does not depend on what the log held before.  A list of strings is
    shown as it is; any value that is not an array (absent, [null], a
    string, an object) empties the log without an error. *)
Theorem updateDebugLog_replaces_the_log w log d :
  let out := run w (updateDebugLog log) d in
  trace out = []
  /\ final out = set_debugLog (fst (rendered_entries (shown_log log))) d
  /\ (forall previous,
        final (run w (updateDebugLog log) (set_debugLog previous d))
        = final out)
  /\ (forall entries,
        log = Some (JArr (map JStr entries)) ->
        debugLog (final out) = entries /\ result out = inr tt)
  /\ (is_array log = false ->
      debugLog (final out) = [] /\ result out = inr tt).
Proof.
  intros out. subst out.
  assert (Hrun : forall d',
    run w (updateDebugLog log) d'
    = mkOutcome [] (set_debugLog (fst (rendered_entries (shown_log log))) d')
        (match snd (rendered_entries (shown_log log)) with
         | Some e => inl e
         | None => inr tt
         end)).
  { intros d'. rewrite run_updateDebugLog.
    destruct log as [[| b | n | s | entries | fields] |]; reflexivity. }
  rewrite !Hrun. cbn.
  split; [reflexivity |]. split; [reflexivity |].
  split; [intros previous; rewrite Hrun; reflexivity |].
  split.
  - intros entries ->. cbn. rewrite string_entries_render. auto.
  - destruct log as [[| b | n | s | entries | fields] |]; cbn; auto.
    discriminate.
Qed.

(** X5.  A chat exchange that succeeds (2xx status, body an object whose
    [response] is a string) ends with the request as the only observation:
    the page holds the User turn and the Bot turn with the reply text, the
    message input is cleared, and the debug log is exactly the strings of
    [debug_log], or empty when the body has no [debug_log]. *)
Theorem chat_success_outcome L w d r fields text :
  has_message d ->
  server w (chat_request (Str.trim (messageInput d))) = inr r ->
  resp_ok r = true ->
  resp_json r = inr (JObj fields) ->
  assoc "response" fields = Some (JStr text) ->
  (forall entries,
     assoc "debug_log" fields = Some (JArr (map JStr entries)) ->
     run w (chatForm_submit L) d
     = mkOutcome [ObsFetch (chat_request (Str.trim (messageInput d)))]
         (set_debugLog entries (with_turn (bot_turn text) (after_user_turn d)))
         (inr tt))
  /\ (assoc "debug_log" fields = None ->
      run w (chatForm_submit L) d
      = mkOutcome [ObsFetch (chat_request (Str.trim (messageInput d)))]
          (set_debugLog [] (with_turn (bot_turn text) (after_user_turn d)))
          (inr tt)).
Proof.
  intros Hmsg Hsrv Hok Hbody Hresp.
  rewrite (chatForm_submit_run L w d Hmsg), Hsrv.
  unfold chat_continuation. cbn. rewrite Hok. cbn. rewrite Hbody. cbn.
  rewrite Hresp. cbn.
  split.
  - intros entries Hlog. rewrite Hlog. cbn.
    rewrite run_try_catch, run_updateDebugLog, string_entries_render.
    reflexivity.
  - intros Hlog. rewrite Hlog. cbn.
    rewrite run_try_catch, run_updateDebugLog. reflexivity.
Qed.

Lemma chat_success_outcome_witness :
  run chatty_world (chatForm_submit en) sample_dom
  = mkOutcome [ObsFetch (chat_request "hello potato")]
      (set_debugLog ["mood: calm"; "memory: 3"]
         (with_turn (bot_turn "Hello!") (after_user_turn sample_dom)))
      (inr tt).
Proof.
  apply (proj1 (chat_success_outcome en chatty_world sample_dom
                  (mkResponse 200 (inr (JObj [("response", JStr "Hello!");
                     ("debug_log", JArr (map JStr ["mood: calm"; "memory: 3"]))])))
                  [("response", JStr "Hello!");
                   ("debug_log", JArr (map JStr ["mood: calm"; "memory: 3"]))]
                  "Hello!" eq_refl eq_refl eq_refl eq_refl eq_refl)
               ["mood: calm"; "memory: 3"]).
  reflexivity.
Defined.

(* ===================================================================== *)
(** ** Frames: what each listener leaves alone *)
(* ===================================================================== *)

Lemma Keeps_ret {X A} (f : Dom -> X) (a : A) : Keeps f (Ret a).
Proof. intros w d. reflexivity. Qed.

Lemma Keeps_throw {X A} (f : Dom -> X) e : Keeps f (@Throw A e).
Proof. intros w d. reflexivity. Qed.

Lemma Keeps_read_dom {X} (f : Dom -> X) : Keeps f read_dom.
Proof. intros w d. reflexivity. Qed.

Lemma Keeps_alert {X} (f : Dom -> X) m : Keeps f (alert m).
Proof. intros w d. reflexivity. Qed.

Lemma Keeps_confirm {X} (f : Dom -> X) m : Keeps f (confirm m).
Proof. intros w d. reflexivity. Qed.

Lemma Keeps_console_error {X} (f : Dom -> X) l e : Keeps f (console_error l e).
Proof. intros w d. reflexivity. Qed.

Lemma Keeps_fetch {X} (f : Dom -> X) req : Keeps f (fetch req).
Proof. apply Keeps_await_fetch. intros x. apply Keeps_lift. Qed.

Lemma Keeps_json {X} (f : Dom -> X) resp : Keeps f (json resp).
Proof. apply Keeps_await_json. intros x. apply Keeps_lift. Qed.

Ltac keeps_step :=
  match goal with
  | |- forall _, _ => intro
  | |- Keeps _ (pbind _ _) => apply Keeps_bind
  | |- Keeps _ (try_catch _ _) => apply Keeps_try_catch
  | |- Keeps _ (for_each _ _) => apply Keeps_for_each
  | |- Keeps _ (lift _) => apply Keeps_lift
  | |- Keeps _ (modify_dom _) => apply Keeps_modify; intros; reflexivity
  | |- Keeps _ (Ret _) => apply Keeps_ret
  | |- Keeps _ (Throw _) => apply Keeps_throw
  | |- Keeps _ read_dom => apply Keeps_read_dom
  | |- Keeps _ (alert _) => apply Keeps_alert
  | |- Keeps _ (confirm _) => apply Keeps_confirm
  | |- Keeps _ (console_error _ _) => apply Keeps_console_error
  | |- Keeps _ (fetch _) => apply Keeps_fetch
  | |- Keeps _ (json _) => apply Keeps_json
  | |- Keeps _ (if ?b then _ else _) => destruct b
  | |- Keeps _ (match ?x with _ => _ end) => destruct x
  | |- Keeps _ (let _ := _ in _) => cbv zeta
  end.

(** Unfold the monad operations of a listener down to [pbind] and
    [try_catch], keeping its effects folded. *)
Ltac open_listener :=
  cbv [chatForm_submit saveTemplateBtn_click handleLoadReset
       deleteTemplateBtn_click chat_continuation appendMessage
       updateDebugLog debug_entry
       bind ret catch raise Monad_Prog Exc_Prog].

Lemma final_emit {A} x (o : Outcome A) : final (emit x o) = final o.
Proof. reflexivity. Qed.

Lemma trace_emit {A} x (o : Outcome A) : trace (emit x o) = x :: trace o.
Proof. reflexivity. Qed.

Lemma result_emit {A} x (o : Outcome A) : result (emit x o) = result o.
Proof. reflexivity. Qed.

Lemma chatForm_submit_keeps_template_controls L :
  Keeps template_controls (chatForm_submit L).
Proof. open_listener. repeat keeps_step. Qed.

Lemma chat_continuation_keeps_input L o :
  Keeps (fun d => (messageInput d, template_controls d)) (chat_continuation L o).
Proof. open_listener. repeat keeps_step. Qed.

Lemma dialogs_nil t : Forall no_dialog t -> dialogs t = [].
Proof.
  induction 1 as [| o t Ho _ IH]; [reflexivity |].
  destruct o; cbn in *; auto; contradiction.
Qed.

Lemma chatForm_submit_no_dialog L : Emits no_dialog (chatForm_submit L).
Proof. unfold chatForm_submit, updateDebugLog. repeat emits_step. Qed.

Lemma chat_continuation_no_fetch L o : Emits no_fetch (chat_continuation L o).
Proof. unfold chat_continuation, updateDebugLog. repeat emits_step. Qed.

Lemma further_turns_length L o :
  (1 <= length (further_turns L o) <= 2)%nat.
Proof.
  unfold further_turns. destruct (chat_reply o) as [[data text] |]; cbn.
  - destruct (log_renders data); cbn; auto.
  - auto.
Qed.

(** X6.  A chat submission never opens a dialog and never touches the
    template controls (the selection control and the name input).  When a
    message was typed, the run ends with the message input cleared and with
    the chat extended by the User turn followed by the turns of the settled
    request. *)
Theorem chat_submission_frame L w d :
  let out := run w (chatForm_submit L) d in
  dialogs (trace out) = []
  /\ template_controls (final out) = template_controls d
  /\ (has_message d ->
      messageInput (final out) = ""
      /\ chatMessages (final out)
         = (chatMessages d
            ++ user_turn (Str.trim (messageInput d))
               :: further_turns L
                    (server w (chat_request (Str.trim (messageInput d)))))%list).
Proof.
  intros out. subst out. split; [| split].
  - apply dialogs_nil, Emits_sound, chatForm_submit_no_dialog.
  - apply chatForm_submit_keeps_template_controls.
  - intros Hmsg. rewrite (chatForm_submit_run L w d Hmsg), final_emit. split.
    + pose proof (chat_continuation_keeps_input L
        (server w (chat_request (Str.trim (messageInput d)))) w
        (after_user_turn d)) as H.
      exact (f_equal fst H).
    + rewrite chat_continuation_turns. cbn. rewrite <- app_assoc. reflexivity.
Qed.

Lemma chat_submission_frame_witness :
  messageInput (final (run chatty_world (chatForm_submit en) sample_dom)) = ""
  /\ chatMessages (final (run chatty_world (chatForm_submit en) sample_dom))
     = (chatMessages sample_dom
        ++ user_turn "hello potato"
           :: further_turns en (server chatty_world (chat_request "hello potato")))%list.
Proof.
  apply (chat_submission_frame en chatty_world sample_dom).
  reflexivity.
Defined.

(** X7.  Under a chat submission the chat is append-only: what it held
    stays in place, and at most three turns are added, none exactly when
    the message was blank. *)
Theorem chat_only_grows L w d :
  exists added,
    chatMessages (final (run w (chatForm_submit L) d))
    = (chatMessages d ++ added)%list
    /\ (length added <= 3)%nat
    /\ (added = [] <-> Str.is_empty (Str.trim (messageInput d)) = true).
Proof.
  destruct (Str.is_empty (Str.trim (messageInput d))) eqn:Hmsg.
  - exists []. unfold chatForm_submit. cbn. rewrite Hmsg. cbn.
    rewrite app_nil_r. repeat split; auto.
  - exists (user_turn (Str.trim (messageInput d))
            :: further_turns L
                 (server w (chat_request (Str.trim (messageInput d))))).
    rewrite (chatForm_submit_run L w d Hmsg), final_emit.
    rewrite chat_continuation_turns. cbn. rewrite <- app_assoc.
    split; [reflexivity |]. split.
    + cbn. pose proof (further_turns_length L
        (server w (chat_request (Str.trim (messageInput d))))) as [_ H].
      apply le_n_S. etransitivity; [exact H | auto].
    + split; discriminate.
Qed.

Lemma chatForm_submit_requests L w d :
  requests (trace (run w (chatForm_submit L) d))
  = if Str.is_empty (Str.trim (messageInput d)) then []
    else [chat_request (Str.trim (messageInput d))].
Proof.
  destruct (Str.is_empty (Str.trim (messageInput d))) eqn:Hmsg.
  - unfold chatForm_submit. cbn. now rewrite Hmsg.
  - rewrite (chatForm_submit_run L w d Hmsg), trace_emit. cbn [requests].
    f_equal. apply requests_none, Emits_sound, chat_continuation_no_fetch.
Qed.

(** X8.  A submission with a message issues exactly one request, the chat
    request with the trimmed message, whatever the server answers: a
    failure is never retried and the reply triggers no further request.  A
    blank submission issues none. *)
Theorem chat_submission_requests L w d :
  requests (trace (run w (chatForm_submit L) d))
  = if Str.is_empty (Str.trim (messageInput d)) then []
    else [chat_request (Str.trim (messageInput d))].
Proof.
  destruct (Str.is_empty (Str.trim (messageInput d))) eqn:Hmsg.
  - unfold chatForm_submit. cbn. now rewrite Hmsg.
  - rewrite (chatForm_submit_run L w d Hmsg), trace_emit. cbn [requests].
    f_equal. apply requests_none, Emits_sound, chat_continuation_no_fetch.
Qed.

Lemma loadTemplates_keeps_chat_views L : Keeps chat_views (loadTemplates L).
Proof.
  intros w d.
  exact (f_equal (fun '(a, b, c, e, _) => (a, b, c, e))
           (loadTemplates_keeps L w d)).
Qed.

Lemma loadTemplates_keeps_name L :
  Keeps (fun d => (chat_views d, templateNameInput d)) (loadTemplates L).
Proof.
  intros w d.
  exact (f_equal (fun '(a, b, c, e, n) => (a, b, c, e, n))
           (loadTemplates_keeps L w d)).
Qed.

Lemma saveTemplateBtn_click_keeps L : Keeps chat_views (saveTemplateBtn_click L).
Proof.
  open_listener. repeat keeps_step. apply loadTemplates_keeps_chat_views.
Qed.

Lemma deleteTemplateBtn_click_keeps L :
  Keeps (fun d => (chat_views d, templateNameInput d))
    (deleteTemplateBtn_click L).
Proof.
  open_listener. repeat keeps_step. apply loadTemplates_keeps_name.
Qed.

Lemma handleLoadReset_keeps L action :
  Keeps (fun d => (messageInput d, template_controls d))
    (handleLoadReset L action).
Proof. open_listener. repeat keeps_step. Qed.

(** X9.  The template listeners stay on their side of the page, whatever
    the server answers: none of them touches the message input; save and
    delete leave the chat and the debug log as they are; load, reset and
    delete leave the name input as it is; load and reset leave the
    selection control as it is. *)
Theorem template_listeners_frame L action w d :
  chat_views (final (run w (saveTemplateBtn_click L) d)) = chat_views d
  /\ chat_views (final (run w (deleteTemplateBtn_click L) d)) = chat_views d
  /\ templateNameInput (final (run w (deleteTemplateBtn_click L) d))
     = templateNameInput d
  /\ messageInput (final (run w (handleLoadReset L action) d)) = messageInput d
  /\ template_controls (final (run w (handleLoadReset L action) d))
     = template_controls d.
Proof.
  pose proof (saveTemplateBtn_click_keeps L w d) as Hs.
  pose proof (deleteTemplateBtn_click_keeps L w d) as Hd.
  pose proof (handleLoadReset_keeps L action w d) as Hl.
  split; [exact Hs |].
  split; [exact (f_equal fst Hd) |].
  split; [exact (f_equal snd Hd) |].
  split; [exact (f_equal fst Hl) | exact (f_equal snd Hl)].
Qed.

(* ===================================================================== *)
(** ** Template requests that fail *)
(* ===================================================================== *)

(** X10.  A save that does not succeed (the request is rejected, the status
    is outside 200-299, the body does not decode, or its message cannot be
    shown) ends in exactly one alert carrying the save-error text; the page
    is unchanged, the name input included, and the template list is not
    fetched.  For a rejected request the text is built from the message of
    the transport error. *)
Theorem save_failure_only_alerts L w d :
  has_name d ->
  success_message (server w (save_request d)) = None ->
  (exists m,
     run w (saveTemplateBtn_click L) d
     = mkOutcome [ObsFetch (save_request d); ObsAlert (save_error_text L m)]
         d (inr tt))
  /\ (forall e,
        server w (save_request d) = inl e ->
        run w (saveTemplateBtn_click L) d
        = mkOutcome
            [ObsFetch (save_request d);
             ObsAlert (save_error_text L (err_message e))]
            d (inr tt)).
Proof.
  intros Hname Hfail. unfold has_name in Hname.
  unfold saveTemplateBtn_click. cbn. rewrite Hname. cbn.
  fold (save_request d). split.
  - revert Hfail. unfold success_message.
    destruct (server w (save_request d)) as [e | r]; cbn;
      [intros _; eexists; reflexivity |].
    destruct (resp_json r) as [e | body]; cbn;
      [intros _; eexists; reflexivity |].
    destruct (resp_ok r); cbn.
    + destruct (get_prop body "success") as [e | v]; cbn;
        [intros _; eexists; reflexivity |].
      destruct (dom_string v) as [e | m]; cbn;
        [intros _; eexists; reflexivity | discriminate].
    + intros _. destruct (get_prop body "error") as [e | v]; cbn;
        [eexists; reflexivity |].
      destruct (error_of v); eexists; reflexivity.
  - intros e He. rewrite He. reflexivity.
Qed.

Lemma save_failure_only_alerts_witness :
  (exists m,
     run offline_world (saveTemplateBtn_click en) sample_dom
     = mkOutcome [ObsFetch (save_request sample_dom);
                  ObsAlert (save_error_text en m)]
         sample_dom (inr tt))
  /\ (forall e,
        server offline_world (save_request sample_dom) = inl e ->
        run offline_world (saveTemplateBtn_click en) sample_dom
        = mkOutcome
            [ObsFetch (save_request sample_dom);
             ObsAlert (save_error_text en (err_message e))]
            sample_dom (inr tt)).
Proof.
  apply (save_failure_only_alerts en offline_world sample_dom).
  - reflexivity.
  - reflexivity.
Defined.

(** X11.  A confirmed load or reset that does not succeed ends in exactly
    one alert carrying the load-error text: the chat and the debug log are
    not cleared, the page is unchanged, and the load request is the only
    request. *)
Theorem load_failure_only_alerts L action w d :
  has_selection d ->
  user_confirms w (confirmationText L action (select_value (templateSelect d)))
    = true ->
  success_message (server w (load_request d)) = None ->
  exists m,
    run w (handleLoadReset L action) d
    = mkOutcome
        [ObsConfirm
           (confirmationText L action (select_value (templateSelect d))) true;
         ObsFetch (load_request d); ObsAlert (load_error_text L m)]
        d (inr tt).
Proof.
  intros [Hsel Hen] Hyes Hfail.
  unfold handleLoadReset. cbn. rewrite Hsel, Hen. cbn. rewrite Hyes. cbn.
  fold (load_request d).
  revert Hfail. unfold success_message.
  destruct (server w (load_request d)) as [e | r]; cbn;
    [intros _; eexists; reflexivity |].
  destruct (resp_json r) as [e | body]; cbn;
    [intros _; eexists; reflexivity |].
  destruct (resp_ok r); cbn.
  - destruct (get_prop body "success") as [e | v]; cbn;
      [intros _; eexists; reflexivity |].
    destruct (dom_string v) as [e | m]; cbn;
      [intros _; eexists; reflexivity | discriminate].
  - intros _. destruct (get_prop body "error") as [e | v]; cbn;
      [eexists; reflexivity |].
    destruct (error_of v); eexists; reflexivity.
Qed.

Lemma load_failure_only_alerts_witness :
  exists m,
    run name_exists_world (handleLoadReset en "load") sample_dom
    = mkOutcome
        [ObsConfirm (confirmationText en "load" "angry") true;
         ObsFetch (load_request sample_dom); ObsAlert (load_error_text en m)]
        sample_dom (inr tt).
Proof.
  apply (load_failure_only_alerts en "load" name_exists_world sample_dom).
  - split; reflexivity.
  - reflexivity.
  - reflexivity.
Defined.

(** X12.  A confirmed delete that does not succeed ends in exactly one
    alert carrying the delete-error text: the page is unchanged and the
    template list is not fetched, so the deleted-or-not template stays
    listed. *)
Theorem delete_failure_only_alerts L w d :
  has_selection d ->
  user_confirms w (delete_confirm_text L (select_value (templateSelect d)))
    = true ->
  success_message (server w (delete_request d)) = None ->
  exists m,
    run w (deleteTemplateBtn_click L) d
    = mkOutcome
        [ObsConfirm (delete_confirm_text L (select_value (templateSelect d)))
           true;
         ObsFetch (delete_request d); ObsAlert (delete_error_text L m)]
        d (inr tt).
Proof.
  intros [Hsel Hen] Hyes Hfail.
  unfold deleteTemplateBtn_click. cbn. rewrite Hsel, Hen. cbn.
  rewrite Hyes. cbn. fold (delete_request d).
  revert Hfail. unfold success_message.
  destruct (server w (delete_request d)) as [e | r]; cbn;
    [intros _; eexists; reflexivity |].
  destruct (resp_json r) as [e | body]; cbn;
    [intros _; eexists; reflexivity |].
  destruct (resp_ok r); cbn.
  - destruct (get_prop body "success") as [e | v]; cbn;
      [intros _; eexists; reflexivity |].
    destruct (dom_string v) as [e | m]; cbn;
      [intros _; eexists; reflexivity | discriminate].
  - intros _. destruct (get_prop body "error") as [e | v]; cbn;
      [eexists; reflexivity |].
    destruct (error_of v); eexists; reflexivity.
Qed.

Lemma delete_failure_only_alerts_witness :
  exists m,
    run offline_world (deleteTemplateBtn_click ja) sample_dom
    = mkOutcome
        [ObsConfirm (delete_confirm_text ja "angry") true;
         ObsFetch (delete_request sample_dom);
         ObsAlert (delete_error_text ja m)]
        sample_dom (inr tt).
Proof.
  apply (delete_failure_only_alerts ja offline_world sample_dom).
  - split; reflexivity.
  - reflexivity.
  - reflexivity.
Defined.

(* ===================================================================== *)
(** ** What the listeners never do *)
(* ===================================================================== *)

Lemma run_read_dom {A} w (k : Dom -> Prog A) d :
  run w (pbind read_dom k) d = run w (k d) d.
Proof. reflexivity. Qed.

Lemma run_confirm {A} w m (k : bool -> Prog A) d :
  run w (pbind (confirm m) k) d
  = emit (ObsConfirm m (user_confirms w m)) (run w (k (user_confirms w m)) d).
Proof. reflexivity. Qed.

(** A [catch] whose handler cannot throw settles normally. *)
Lemma or_else_settles (o : Outcome unit) h :
  (forall e d, result (h e d) = inr tt) -> result (or_else o h) = inr tt.
Proof.
  intros H. unfold or_else. destruct (result o) as [e | []] eqn:E; cbn.
  - apply H.
  - exact E.
Qed.

Lemma chatForm_submit_settles L w d :
  result (run w (chatForm_submit L) d) = inr tt.
Proof.
  destruct (Str.is_empty (Str.trim (messageInput d))) eqn:Hmsg.
  - unfold chatForm_submit. cbn. now rewrite Hmsg.
  - rewrite (chatForm_submit_run L w d Hmsg), result_emit.
    unfold chat_continuation. cbv [catch Exc_Prog].
    rewrite run_try_catch. apply or_else_settles. reflexivity.
Qed.

Lemma saveTemplateBtn_click_settles L w d :
  result (run w (saveTemplateBtn_click L) d) = inr tt.
Proof.
  open_listener. rewrite run_read_dom. cbv zeta.
  destruct (Str.is_empty (Str.trim (templateNameInput d))); [reflexivity |].
  rewrite run_try_catch. apply or_else_settles. reflexivity.
Qed.

Lemma handleLoadReset_settles L action w d :
  result (run w (handleLoadReset L action) d) = inr tt.
Proof.
  open_listener. rewrite run_read_dom. cbv zeta.
  destruct (_ || _); [reflexivity |].
  rewrite run_confirm, result_emit.
  destruct (user_confirms w _); cbn [negb]; [| reflexivity].
  rewrite run_try_catch. apply or_else_settles. reflexivity.
Qed.

Lemma deleteTemplateBtn_click_settles L w d :
  result (run w (deleteTemplateBtn_click L) d) = inr tt.
Proof.
  open_listener. rewrite run_read_dom. cbv zeta.
  destruct (_ || _); [reflexivity |].
  rewrite run_confirm, result_emit.
  destruct (user_confirms w _); cbn [negb]; [| reflexivity].
  rewrite run_try_catch. apply or_else_settles. reflexivity.
Qed.

(** X13.  No entry point of the script ever ends in an uncaught exception:
    whatever the user answers and whatever the server sends (a rejected
    request, [null], values that cannot be printed), the promise of every
    listener resolves. *)
Theorem listeners_never_reject L p w d :
  In p (handlers L) -> result (run w p d) = inr tt.
Proof.
  intros Hp. unfold handlers, In in Hp.
  destruct Hp as [<- | [<- | [<- | [<- | [<- | [<- | []]]]]]].
  - apply loadTemplates_never_throws.
  - apply chatForm_submit_settles.
  - apply saveTemplateBtn_click_settles.
  - apply handleLoadReset_settles.
  - apply handleLoadReset_settles.
  - apply deleteTemplateBtn_click_settles.
Qed.

Lemma listeners_never_reject_witness :
  result (run unprintable_log_world (chatForm_submit en) sample_dom) = inr tt.
Proof.
  apply (listeners_never_reject en (chatForm_submit en)).
  unfold handlers, In. right. left. reflexivity.
Defined.

(** X14.  A load or a reset is all or nothing.  Whatever happens, the page
    afterwards is either exactly as before, or as before with the chat and
    the debug log both emptied; the latter only with a template selected
    and after the server's success message was shown.  The listener issues
    at most one request, the load request, and never fetches the template
    list. *)
Theorem load_reset_all_or_nothing L action w d :
  let out := run w (handleLoadReset L action) d in
  (final out = d
   \/ (final out = views_cleared d
       /\ has_selection d
       /\ exists msg,
            success_message (server w (load_request d)) = Some msg
            /\ In (ObsAlert msg) (trace out)))
  /\ (requests (trace out) = [] \/ requests (trace out) = [load_request d]).
Proof.
  intros out. subst out. unfold handleLoadReset, has_selection. cbn.
  destruct (Str.is_empty (select_value (templateSelect d))) eqn:Hsel;
    [cbn; auto |].
  destruct (sel_disabled (templateSelect d)) eqn:Hen; [cbn; auto |].
  cbn. destruct (user_confirms w _); [| cbn; auto].
  cbn. fold (load_request d).
  destruct (server w (load_request d)) as [e | r]; cbn; [auto |].
  destruct (resp_json r) as [e | body]; cbn; [destruct (resp_ok r); auto |].
  destruct (resp_ok r); cbn.
  - destruct (get_prop body "success") as [e | v]; cbn; [auto |].
    destruct (dom_string v) as [e | m]; cbn; [auto |].
    split; [right | auto].
    split; [reflexivity |]. split; [auto |].
    exists m. auto.
  - destruct (get_prop body "error") as [e | v]; cbn; [auto |].
    destruct (error_of v); auto.
Qed.

(** X15.  With a name typed, the save listener clears the name input
    exactly when the save succeeded; on every failure the name stays in the
    input for another attempt. *)
Theorem save_clears_name_on_success_only L w d :
  has_name d ->
  templateNameInput (final (run w (saveTemplateBtn_click L) d))
  = match success_message (server w (save_request d)) with
    | Some _ => ""
    | None => templateNameInput d
    end.
Proof.
  intros Hname. unfold has_name in Hname.
  unfold saveTemplateBtn_click. cbn. rewrite Hname. cbn.
  fold (save_request d).
  destruct (server w (save_request d)) as [e | r]; cbn; [reflexivity |].
  destruct (resp_json r) as [e | body]; cbn;
    [destruct (resp_ok r); reflexivity |].
  destruct (resp_ok r); cbn.
  - destruct (get_prop body "success") as [e | v]; cbn; [reflexivity |].
    destruct (dom_string v) as [e | m]; cbn; [reflexivity |].
    rewrite run_refresh_in_try.
    exact (f_equal snd
             (loadTemplates_keeps_name L w (set_templateNameInput "" d))).
  - destruct (get_prop body "error") as [e | v]; cbn; [reflexivity |].
    destruct (error_of v); reflexivity.
Qed.

Lemma save_clears_name_on_success_only_witness :
  templateNameInput (final (run accepting_world (saveTemplateBtn_click en)
                              sample_dom)) = ""
  /\ templateNameInput (final (run name_exists_world (saveTemplateBtn_click en)
                                 sample_dom)) = " snapshot-1 ".
Proof.
  split.
  - apply (save_clears_name_on_success_only en accepting_world sample_dom).
    reflexivity.
  - apply (save_clears_name_on_success_only en name_exists_world sample_dom).
    reflexivity.
Defined.

(* ===================================================================== *)
(** ** Refreshing the template list, in general *)
(* ===================================================================== *)




Lemma run_loadTemplates_decoded L w d r templates :
  server w (get "/templates") = inr r ->
  resp_json r = inr templates ->
  run w (loadTemplates L) d
  = emit (ObsFetch (get "/templates"))
      (or_else (run w (render_templates L templates) d)
         (fun e d' => run w (console_error "Failed to load templates:" e) d')).
Proof.
  intros Hsrv Hbody. rewrite loadTemplates_unfold.
  rewrite run_try_catch. cbn [fetch pbind run]. rewrite Hsrv.
  cbn [lift pbind json run]. rewrite Hbody. cbn [lift pbind].
  unfold or_else at 1. cbn [result emit trace final].
  unfold or_else at 1.
  destruct (result (run w (render_templates L templates) d)); reflexivity.
Qed.



(* ===================================================================== *)
(** ** How the operations compose *)
(* ===================================================================== *)

Lemma handleLoadReset_requests L action w d :
  requests (trace (run w (handleLoadReset L action) d))
  = if Str.is_empty (select_value (templateSelect d))
       || sel_disabled (templateSelect d)
    then []
    else if user_confirms w
              (confirmationText L action (select_value (templateSelect d)))
         then [load_request d]
         else [].
Proof.
  unfold handleLoadReset. cbn.
  destruct (_ || _); [reflexivity |]. cbn.
  destruct (user_confirms w _); cbn; [| reflexivity].
  f_equal. apply (load_continuation_requests L).
Qed.

Lemma saveTemplateBtn_click_requests L w d :
  requests (trace (run w (saveTemplateBtn_click L) d))
  = if Str.is_empty (Str.trim (templateNameInput d)) then []
    else save_request d
         :: match success_message (server w (save_request d)) with
            | Some _ => [get "/templates"]
            | None => []
            end.
Proof.
  unfold saveTemplateBtn_click. cbn.
  destruct (Str.is_empty (Str.trim (templateNameInput d))); [reflexivity |].
  cbn. fold (save_request d).
  destruct (server w (save_request d)) as [e | r]; cbn; [reflexivity |].
  destruct (resp_json r) as [e | body]; cbn;
    [destruct (resp_ok r); reflexivity |].
  destruct (resp_ok r); cbn.
  - destruct (get_prop body "success") as [e | v]; cbn; [reflexivity |].
    destruct (dom_string v) as [e | m]; cbn; [reflexivity |].
    rewrite run_refresh_in_try, loadTemplates_requests. reflexivity.
  - destruct (get_prop body "error") as [e | v]; cbn; [reflexivity |].
    destruct (error_of v); reflexivity.
Qed.

Lemma deleteTemplateBtn_click_requests L w d :
  requests (trace (run w (deleteTemplateBtn_click L) d))
  = if Str.is_empty (select_value (templateSelect d))
       || sel_disabled (templateSelect d)
    then []
    else if user_confirms w
              (delete_confirm_text L (select_value (templateSelect d)))
         then delete_request d
              :: match success_message (server w (delete_request d)) with
                 | Some _ => [get "/templates"]
                 | None => []
                 end
         else [].
Proof.
  unfold deleteTemplateBtn_click. cbn.
  destruct (_ || _); [reflexivity |]. cbn.
  destruct (user_confirms w _); cbn; [| reflexivity].
  fold (delete_request d).
  destruct (server w (delete_request d)) as [e | r]; cbn; [reflexivity |].
  destruct (resp_json r) as [e | body]; cbn;
    [destruct (resp_ok r); reflexivity |].
  destruct (resp_ok r); cbn.
  - destruct (get_prop body "success") as [e | v]; cbn; [reflexivity |].
    destruct (dom_string v) as [e | m]; cbn; [reflexivity |].
    rewrite run_refresh_in_try, loadTemplates_requests. reflexivity.
  - destruct (get_prop body "error") as [e | v]; cbn; [reflexivity |].
    destruct (error_of v); reflexivity.
Qed.

(** X17.  After a refresh that received the empty list, the selection
    control holds only the placeholder, so a click on load, reset or delete
    shows the no-selection alert and issues no request, whatever else the
    page holds. *)
Theorem empty_list_blocks_template_actions L w d r w' action :
  server w (get "/templates") = inr r ->
  resp_json r = inr (JArr []) ->
  let d1 := final (run w (loadTemplates L) d) in
  select_value (templateSelect d1) = ""
  /\ run w' (handleLoadReset L action) d1
     = mkOutcome [ObsAlert (no_selection_text L)] d1 (inr tt)
  /\ run w' (deleteTemplateBtn_click L) d1
     = mkOutcome [ObsAlert (no_selection_text L)] d1 (inr tt).
Proof.
  intros Hsrv Hbody d1. subst d1.
  rewrite (run_loadTemplates_decoded L w d r (JArr []) Hsrv Hbody).
  repeat split.
Qed.

Lemma empty_list_blocks_template_actions_witness :
  let d1 :=
    final (run (world_of true (ok_with (JArr []))) (loadTemplates ja) sample_dom) in
  select_value (templateSelect d1) = ""
  /\ run accepting_world (handleLoadReset ja "load") d1
     = mkOutcome [ObsAlert (no_selection_text ja)] d1 (inr tt)
  /\ run accepting_world (deleteTemplateBtn_click ja) d1
     = mkOutcome [ObsAlert (no_selection_text ja)] d1 (inr tt).
Proof.
  apply (empty_list_blocks_template_actions ja
           (world_of true (ok_with (JArr []))) sample_dom
           (mkResponse 200 (inr (JArr [])))).
  - reflexivity.
  - reflexivity.
Defined.

Lemma append_options_selected_disabled names s :
  sel_disabled (append_options names s) = sel_disabled s.
Proof.
  revert s. induction names as [| n names IH]; intros s; cbn; [reflexivity |].
  unfold append_options in IH. now rewrite IH.
Qed.

(** X18.  After a refresh that received a non-empty list of names into an
    enabled control, the first name is the selected one: a confirmed load
    or reset right after it requests exactly that template. *)
Theorem refreshed_list_selects_first_template L w d r name rest w' action :
  server w (get "/templates") = inr r ->
  resp_json r = inr (JArr (map JStr (name :: rest))) ->
  Str.is_empty name = false ->
  sel_disabled (templateSelect d) = false ->
  user_confirms w' (confirmationText L action name) = true ->
  let d1 := final (run w (loadTemplates L) d) in
  select_value (templateSelect d1) = name
  /\ requests (trace (run w' (handleLoadReset L action) d1))
     = [post_json "/templates/load" (name_payload name)].
Proof.
  intros Hsrv Hbody Hname Hen Hyes d1.
  assert (Hsel : templateSelect d1
                 = append_options rest
                     (mkSelect [template_option name] (Some 0%nat) false)).
  { subst d1. unfold loadTemplates. cbn. rewrite Hsrv. cbn. rewrite Hbody.
    cbn. rewrite run_try_catch, render_names. cbn.
    unfold select_append, select_clear. cbn. now rewrite Hen. }
  assert (Hvalue : select_value (templateSelect d1) = name).
  { rewrite Hsel. unfold select_value.
    rewrite (append_options_selected rest
               (mkSelect [template_option name] (Some 0%nat) false) 0%nat
               eq_refl).
    rewrite append_options_options. reflexivity. }
  split; [exact Hvalue |].
  rewrite handleLoadReset_requests. unfold load_request.
  rewrite Hvalue, Hname, Hyes.
  rewrite Hsel, append_options_selected_disabled. reflexivity.
Qed.

Lemma refreshed_list_selects_first_template_witness :
  let d1 :=
    final (run (world_of true (ok_with (JArr (map JStr ["sleepy"; "calm"]))))
             (loadTemplates en) sample_dom) in
  select_value (templateSelect d1) = "sleepy"
  /\ requests (trace (run accepting_world (handleLoadReset en "reset") d1))
     = [post_json "/templates/load" (name_payload "sleepy")].
Proof.
  apply (refreshed_list_selects_first_template en
           (world_of true (ok_with (JArr (map JStr ["sleepy"; "calm"]))))
           sample_dom
           (mkResponse 200 (inr (JArr (map JStr ["sleepy"; "calm"]))))
           "sleepy" ["calm"] accepting_world "reset").
  - reflexivity.
  - reflexivity.
  - reflexivity.
  - reflexivity.
  - reflexivity.
Defined.

(** X19.  Submissions are not guarded against overlap.  When a second
    message is submitted while the first request is pending, both User
    turns are on the page before either reply, and each settled request
    appends its turns at the end of the chat as it then stands: the replies
    appear in the order in which the requests settle, not in the order of
    the questions. *)
Theorem overlapping_submissions L w d second o1 o2 :
  has_message d ->
  has_message (set_messageInput second (after_user_turn d)) ->
  let m1 := Str.trim (messageInput d) in
  let m2 := Str.trim second in
  let d2 := after_user_turn (set_messageInput second (after_user_turn d)) in
  exists k1 k2,
    run_sync w (chatForm_submit L) d
    = ([], after_user_turn d, PendingFetch (chat_request m1) k1)
    /\ run_sync w (chatForm_submit L)
         (set_messageInput second (after_user_turn d))
       = ([], d2, PendingFetch (chat_request m2) k2)
    /\ chatMessages d2 = (chatMessages d ++ [user_turn m1; user_turn m2])%list
    /\ chatMessages (final (run w (k2 o2) (final (run w (k1 o1) d2))))
       = (chatMessages d ++ [user_turn m1; user_turn m2]
          ++ further_turns L o1 ++ further_turns L o2)%list
    /\ chatMessages (final (run w (k1 o1) (final (run w (k2 o2) d2))))
       = (chatMessages d ++ [user_turn m1; user_turn m2]
          ++ further_turns L o2 ++ further_turns L o1)%list.
Proof.
  intros H1 H2 m1 m2 d2.
  exists (chat_continuation L), (chat_continuation L).
  assert (Hd2 : chatMessages d2
                = (chatMessages d ++ [user_turn m1; user_turn m2])%list).
  { subst d2 m1 m2. cbn. now rewrite <- app_assoc. }
  split; [apply chatForm_submit_sync, H1 |].
  split; [apply (chatForm_submit_sync L w _ H2) |].
  split; [exact Hd2 |].
  rewrite !chat_continuation_turns, Hd2. fold (further_turns L o1).
  fold (further_turns L o2).
  split; rewrite <- !app_assoc; reflexivity.
Qed.

Lemma overlapping_submissions_witness :
  exists k1 k2,
    run_sync chatty_world (chatForm_submit en) sample_dom
    = ([], after_user_turn sample_dom,
       PendingFetch (chat_request "hello potato") k1)
    /\ run_sync chatty_world (chatForm_submit en)
         (set_messageInput " again " (after_user_turn sample_dom))
       = ([], after_user_turn
                (set_messageInput " again " (after_user_turn sample_dom)),
          PendingFetch (chat_request "again") k2)
    /\ chatMessages
         (after_user_turn
            (set_messageInput " again " (after_user_turn sample_dom)))
       = (chatMessages sample_dom
          ++ [user_turn "hello potato"; user_turn "again"])%list
    /\ chatMessages
         (final (run chatty_world (k2 (inl (TypeError "Failed to fetch")))
                   (final (run chatty_world (k1 (server chatty_world (chat_request "hello potato")))
                             (after_user_turn
                                (set_messageInput " again "
                                   (after_user_turn sample_dom)))))))
       = (chatMessages sample_dom
          ++ [user_turn "hello potato"; user_turn "again"]
          ++ further_turns en (server chatty_world (chat_request "hello potato"))
          ++ further_turns en (inl (TypeError "Failed to fetch")))%list
    /\ chatMessages
         (final (run chatty_world (k1 (server chatty_world (chat_request "hello potato")))
                   (final (run chatty_world (k2 (inl (TypeError "Failed to fetch")))
                             (after_user_turn
                                (set_messageInput " again "
                                   (after_user_turn sample_dom)))))))
       = (chatMessages sample_dom
          ++ [user_turn "hello potato"; user_turn "again"]
          ++ further_turns en (inl (TypeError "Failed to fetch"))
          ++ further_turns en (server chatty_world (chat_request "hello potato")))%list.
Proof.
  apply (overlapping_submissions en chatty_world sample_dom " again "
           (server chatty_world (chat_request "hello potato"))
           (inl (TypeError "Failed to fetch"))).
  - reflexivity.
  - reflexivity.
Defined.

(* ===================================================================== *)
(** ** The two localisations on the wire *)
(* ===================================================================== *)

(** X20.  The localisation never reaches the wire: for any two tables of
    user-facing strings, in particular the English and the Japanese one,
    every entry point issues the same requests in the same order from the
    same page against the same server, provided the user answers the
    confirmation alike in both languages. *)
Theorem requests_do_not_depend_on_locale L1 L2 w d :
  requests (trace (run w (on_DOMContentLoaded L1) d))
  = requests (trace (run w (on_DOMContentLoaded L2) d))
  /\ requests (trace (run w (chatForm_submit L1) d))
     = requests (trace (run w (chatForm_submit L2) d))
  /\ requests (trace (run w (saveTemplateBtn_click L1) d))
     = requests (trace (run w (saveTemplateBtn_click L2) d))
  /\ (forall action,
        user_confirms w
          (confirmationText L1 action (select_value (templateSelect d)))
        = user_confirms w
            (confirmationText L2 action (select_value (templateSelect d))) ->
        requests (trace (run w (handleLoadReset L1 action) d))
        = requests (trace (run w (handleLoadReset L2 action) d)))
  /\ (user_confirms w (delete_confirm_text L1 (select_value (templateSelect d)))
      = user_confirms w
          (delete_confirm_text L2 (select_value (templateSelect d))) ->
      requests (trace (run w (deleteTemplateBtn_click L1) d))
      = requests (trace (run w (deleteTemplateBtn_click L2) d))).
Proof.
  split; [| split; [| split; [| split]]].
  - unfold on_DOMContentLoaded. now rewrite !loadTemplates_requests.
  - now rewrite !chatForm_submit_requests.
  - now rewrite !saveTemplateBtn_click_requests.
  - intros action Hsame. rewrite !handleLoadReset_requests. now rewrite Hsame.
  - intros Hsame. rewrite !deleteTemplateBtn_click_requests. now rewrite Hsame.
Qed.

Lemma requests_do_not_depend_on_locale_witness :
  requests (trace (run accepting_world (handleLoadReset en "reset") sample_dom))
  = requests (trace (run accepting_world (handleLoadReset ja "reset") sample_dom)).
Proof.
  apply (requests_do_not_depend_on_locale en ja accepting_world sample_dom).
  reflexivity.
Defined.

(* ===================================================================== *)
(** ** The placeholder *)
(* ===================================================================== *)

(** X21.  The placeholder is shown for every decoded body whose [length]
    is 0, not only for the empty array: the empty string and an object with
    [length: 0] render it as well, silently and whatever the status of the
    response.  The control then holds the single disabled placeholder and
    nothing is selected. *)
Theorem zero_length_body_renders_placeholder L w d r templates :
  server w (get "/templates") = inr r ->
  resp_json r = inr templates ->
  get_length templates = inr (Some (JNum 0)) ->
  run w (loadTemplates L) d
  = mkOutcome [ObsFetch (get "/templates")]
      (set_templateSelect
         (mkSelect [placeholder_option L] None
            (sel_disabled (templateSelect d))) d)
      (inr tt).
Proof.
  intros Hsrv Hbody Hlen.
  rewrite (run_loadTemplates_decoded L w d r templates Hsrv Hbody).
  unfold render_templates. cbv [bind ret raise Monad_Prog Exc_Prog].
  rewrite run_bind. cbn [modify_dom run and_then result final trace prepend].
  rewrite Hlen. reflexivity.
Qed.

Lemma zero_length_body_renders_placeholder_witness :
  run (world_of true (inr (mkResponse 500 (inr (JObj [("length", JNum 0)])))))
    (loadTemplates en) sample_dom
  = mkOutcome [ObsFetch (get "/templates")]
      (set_templateSelect
         (mkSelect [placeholder_option en] None false) sample_dom)
      (inr tt).
Proof.
  apply (zero_length_body_renders_placeholder en
           (world_of true (inr (mkResponse 500 (inr (JObj [("length", JNum 0)])))))
           sample_dom (mkResponse 500 (inr (JObj [("length", JNum 0)])))
           (JObj [("length", JNum 0)])).
  - reflexivity.
  - reflexivity.
  - reflexivity.
Defined.
